(** * The availability poller of the lesson-notification app (src/main.py)

    A shallow embedding of the Flask application in src/main.py: the
    [UserData] table, the scraper [get_available_slots], the notifier
    [send_push_notification], the scheduled job
    [check_teacher_availability] and the routes that write the table
    ([index], [delete_teacher], [reset_user]).

    The table is a finite map from the integer primary key to the row.
    The outside world (the lesson site, Pushbullet, the database engine)
    is an oracle [World] that fixes, for one run of the job, what every
    external call answers.  The job is written in a state-and-exception
    monad over the process state; every external call and every [print]
    is appended to a trace. *)

From stdpp Require Import gmap strings list fin_maps pretty sorting.

Local Open Scope Z_scope.

(** ** Exceptions *)

(** Python exceptions, as far as the handlers of main.py tell them apart:
    [except requests.exceptions.RequestException] catches the first
    constructor only, [except Exception] catches both.  What is raised
    outside the class Exception (KeyboardInterrupt, SystemExit) is not
    modelled. *)
Inductive exn : Type :=
  | RequestException (msg : string)
  | Exception (cls msg : string).

Definition is_RequestException (e : exn) : bool :=
  match e with RequestException _ => true | Exception _ _ => false end.

Definition is_Exception (e : exn) : bool := true.

(** [str(e)], as the f-strings of the handlers print it. *)
Definition str_exn (e : exn) : string :=
  match e with RequestException msg => msg | Exception _ msg => msg end.

Inductive Res (A : Type) : Type :=
  | Ok (a : A)
  | Raise (e : exn).
Arguments Ok {A} a.
Arguments Raise {A} e.

(** ** The table *)

(** class UserData(db.Model); the primary key [id] is the key of the map.
    [last_available_count] is never NULL in a row the app wrote (default 0). *)
Record UserData : Type := mkUserData {
  teacher_id : string;
  teacher_name : option string;       (* nullable=True *)
  pushbullet_token : string;
  last_available_count : Z;
  user_id : string;
  last_accessed : Z                   (* a timestamp *)
}.

Definition with_last_available_count (c : Z) (u : UserData) : UserData :=
  mkUserData (teacher_id u) (teacher_name u) (pushbullet_token u) c
             (user_id u) (last_accessed u).

Definition with_last_accessed (t : Z) (u : UserData) : UserData :=
  mkUserData (teacher_id u) (teacher_name u) (pushbullet_token u)
             (last_available_count u) (user_id u) t.

(** ** Pages *)

(** The document BeautifulSoup builds from a response body. *)
Inductive node : Type :=
  | Tag (name : string) (children : list node)
  | NavigableString (s : string).

(** All strings below a node, in document order. *)
Fixpoint strings_of (n : node) : list string :=
  match n with
  | NavigableString s => [s]
  | Tag _ cs => flat_map strings_of cs
  end.

(** [soup.find_all(string=s)]: the strings of the document equal to [s]. *)
Definition find_all_string (s : string) (soup : list node) : list string :=
  filter (λ x, x = s) (flat_map strings_of soup).

(** [soup.find(name)]: the first tag of that name, in document order. *)
Fixpoint find_in (name : string) (n : node) : option node :=
  match n with
  | NavigableString _ => None
  | Tag t cs =>
      if bool_decide (t = name) then Some n
      else (fix go (l : list node) : option node :=
              match l with
              | [] => None
              | c :: l' =>
                  match find_in name c with Some r => Some r | None => go l' end
              end) cs
  end.

Fixpoint find (name : string) (soup : list node) : option node :=
  match soup with
  | [] => None
  | c :: l => match find_in name c with Some r => Some r | None => find name l end
  end.

(** [tag.text] *)
Definition text (n : node) : string := String.concat "" (strings_of n).

(** What [requests.get] returns, after redirects were followed. *)
Record Response : Type := mkResponse {
  status_code : Z;
  url : string;
  content : list node
}.

Definition LANDING_PAGE : string := "https://eikaiwa.dmm.com/".

Definition teacher_page (teacher_id : string) : string :=
  "https://eikaiwa.dmm.com/teacher/index/" +:+ teacher_id +:+ "/".

(** ** The trace *)

(** External calls and printed lines.  [row] is the primary key of the
    subscription whose loop iteration makes the call; it is bookkeeping of
    the model and not part of what is sent. *)
Inductive event : Type :=
  | Sleep (row : Z)                              (* time.sleep(random.uniform(0.5, 2.0)) *)
  | Get (row : Z) (url : string)                 (* requests.get *)
  | NewPushbullet (row : Z) (token : string)     (* Pushbullet(user_token) *)
  | PushLink (row : Z) (title url : string)      (* pb_user.push_link *)
  | Commit (row : Z) (flushed : list (Z * Z))    (* db.session.commit *)
  | Print (line : string).

Definition row_of (e : event) : option Z :=
  match e with
  | Sleep r | Get r _ | NewPushbullet r _ | PushLink r _ _ | Commit r _ => Some r
  | Print _ => None
  end.

(** ** The outside world during one run of the job

    Each row is handled once per run, so the answers are indexed by the
    row whose iteration asks.  [requests_get] stands for everything
    between the request and the parsed page: an [Exception] there is any
    error of the try block of the scraper that is no RequestException. *)

Record World : Type := mkWorld {
  query_all_error : option exn;                      (* UserData.query.all() may fail *)
  requests_get : Z → string → Res Response;          (* row, url *)
  Pushbullet_init : Z → string → option exn;         (* row, token *)
  push_link_result : Z → string → string → option exn;  (* row, title, url *)
  commit_error : Z → option exn                      (* row *)
}.

(** ** Process state *)

Record State : Type := mkState {
  database : gmap Z UserData;   (* the committed rows of database.db *)
  session : gmap Z Z;           (* db.session: last_available_count written, not yet committed *)
  consecutive_errors : Z;       (* the module global *)
  trace : list event
}.

Definition set_database (d : gmap Z UserData) (st : State) : State :=
  mkState d (session st) (consecutive_errors st) (trace st).
Definition set_session (s : gmap Z Z) (st : State) : State :=
  mkState (database st) s (consecutive_errors st) (trace st).
Definition set_consecutive_errors (n : Z) (st : State) : State :=
  mkState (database st) (session st) n (trace st).
Definition add_event (e : event) (st : State) : State :=
  mkState (database st) (session st) (consecutive_errors st) (trace st ++ [e]).

Definition MAX_ERRORS : Z := 5.

(** ** The monad *)

Definition M (A : Type) : Type := State → Res A * State.

Global Instance M_ret : MRet M := λ A a st, (Ok a, st).
Global Instance M_bind : MBind M := λ A B k m st,
  match m st with
  | (Ok a, st') => k a st'
  | (Raise e, st') => (Raise e, st')
  end.

Definition raise {A} (e : exn) : M A := λ st, (Raise e, st).

(** try: body / except <class> as e: handler e *)
Definition try_except {A} (body : M A) (catches : exn → bool) (handler : exn → M A) : M A :=
  λ st, match body st with
        | (Ok a, st') => (Ok a, st')
        | (Raise e, st') => if catches e then handler e st' else (Raise e, st')
        end.

Definition emit (e : event) : M unit := λ st, (Ok tt, add_event e st).
Definition print (line : string) : M unit := emit (Print line).
Definition get_state : M State := λ st, (Ok st, st).
Definition modify (f : State → State) : M unit := λ st, (Ok tt, f st).

Definition may_raise (o : option exn) : M unit :=
  match o with Some e => raise e | None => mret tt end.

(** ** Store operations used by the job *)

(** The rows of a table as a query without ORDER BY gives them: SQLite
    walks the table by rowid, so in the order of the primary key. *)
Definition by_id (a b : Z * UserData) : Prop := a.1 <= b.1.

Global Instance by_id_dec (a b : Z * UserData) : Decision (by_id a b) :=
  Z_le_dec a.1 b.1.

Definition all_rows (d : gmap Z UserData) : list (Z * UserData) :=
  merge_sort by_id (map_to_list d).

(** UserData.query.all() *)
Definition query_all (w : World) : M (list (Z * UserData)) :=
  may_raise (query_all_error w);;
  st ← get_state;
  mret (all_rows (database st)).

(** user.last_available_count = c, on the session's object for [row] *)
Definition set_last_available_count (row c : Z) : M unit :=
  modify (λ st, set_session (<[row := c]> (session st)) st).

(** The rows after the pending writes of the session are flushed. *)
Definition flush (pending : gmap Z Z) (d : gmap Z UserData) : gmap Z UserData :=
  merge (λ ou oc, match ou with
                  | Some u => Some (match oc with
                                    | Some c => with_last_available_count c u
                                    | None => u
                                    end)
                  | None => None
                  end) d pending.

(** db.session.commit() *)
Definition commit (w : World) (row : Z) : M unit :=
  st ← get_state;
  emit (Commit row (map_to_list (session st)));;
  may_raise (commit_error w row);;
  modify (λ st, set_session ∅ (set_database (flush (session st) (database st)) st)).

(** ** get_available_slots *)

Definition get_available_slots (w : World) (row : Z) (teacher_id : string) : M (option Z) :=
  let load_url := teacher_page teacher_id in
  try_except
    (emit (Get row load_url);;
     match requests_get w row load_url with
     | Raise e => raise e
     | Ok response =>
         if bool_decide (status_code response ≠ 200)
            || bool_decide (url response = LANDING_PAGE)
         then mret None
         else
           let soup := content response in
           mret (Some (Z.of_nat (length (find_all_string "予約可" soup))))
     end)
    is_RequestException
    (λ _, mret None).

(** ** send_push_notification *)

Definition str_name (name : option string) : string :=
  match name with Some s => s | None => "None" end.

Definition send_push_notification (w : World) (row : Z)
    (user_token teacher_id : string) (name : option string) : M unit :=
  try_except
    (emit (NewPushbullet row user_token);;
     may_raise (Pushbullet_init w row user_token);;
     let url := teacher_page teacher_id in
     let title := str_name name +:+ " レッスン開講通知" in
     emit (PushLink row title url);;
     may_raise (push_link_result w row title url))
    is_Exception
    (λ e, print ("⚠ Pushbullet通知の送信に失敗しました: " +:+ str_exn e)).

(** ** check_teacher_availability *)

(** for user in users: ... ; the result is error_count_this_run.  The
    fields of [user] are those of the snapshot: a row is written in its
    own iteration only, so reloading it after a commit gives the same. *)
Fixpoint for_users (w : World) (users : list (Z * UserData))
    (error_count_this_run : Z) : M Z :=
  match users with
  | [] => mret error_count_this_run
  | (row, user) :: rest =>
      emit (Sleep row);;
      current_count ← get_available_slots w row (teacher_id user);
      match current_count with
      | None => for_users w rest (error_count_this_run + 1)
      | Some c =>
          (if bool_decide (c > last_available_count user)
           then send_push_notification w row (pushbullet_token user)
                  (teacher_id user) (teacher_name user)
           else mret tt);;
          set_last_available_count row c;;
          commit w row;;
          for_users w rest error_count_this_run
      end
  end.

Definition full_failure_line (n : Z) : string :=
  "⚠ DMMに全ユーザーでアクセス失敗（" +:+ pretty n +:+ "回連続）".

(** The body of the try block. *)
Definition check_body (w : World) : M unit :=
  users ← query_all w;
  error_count_this_run ← for_users w users 0;
  if bool_decide (error_count_this_run = Z.of_nat (length users)) then
    modify (λ st, set_consecutive_errors (consecutive_errors st + 1) st);;
    st ← get_state;
    print (full_failure_line (consecutive_errors st));;
    if bool_decide (consecutive_errors st >= MAX_ERRORS) then
      print "🚨 一時的にチェック処理をスキップします"   (* return *)
    else mret tt
  else
    modify (set_consecutive_errors 0).

(** with app.app_context(): the session lives as long as the context. *)
Definition new_session (st : State) : State := set_session ∅ st.

Definition with_app_context {A} (body : M A) : M A :=
  λ st, match body (new_session st) with
        | (r, st') => (r, new_session st')
        end.

Definition check_teacher_availability (w : World) : M unit :=
  with_app_context
    (try_except (check_body w) is_Exception
       (λ e, print ("⚠ 通知チェックでエラー発生: " +:+ str_exn e))).

(** scheduler.add_job(check_teacher_availability, 'interval', ...): one
    run after the other, each in the world of its time. *)
Fixpoint scheduler (ws : list World) : M unit :=
  match ws with
  | [] => mret tt
  | w :: ws' => check_teacher_availability w;; scheduler ws'
  end.

(** ** What one run does, as functions of the world

    The scraper and the notifier do not read the state; the summaries
    below give their results and the events they append.  They serve the
    proofs: every theorem further down is stated on the program. *)

Definition add_events (es : list event) (st : State) : State :=
  mkState (database st) (session st) (consecutive_errors st) (trace st ++ es).

Definition probe (w : World) (row : Z) (tid : string) : Res (option Z) :=
  match requests_get w row (teacher_page tid) with
  | Raise e => if is_RequestException e then Ok None else Raise e
  | Ok response =>
      Ok (if bool_decide (status_code response ≠ 200)
             || bool_decide (url response = LANDING_PAGE)
          then None
          else Some (Z.of_nat (length (find_all_string "予約可" (content response)))))
  end.

Definition push_failed_line (e : exn) : string :=
  "⚠ Pushbullet通知の送信に失敗しました: " +:+ str_exn e.

Definition notify_events (w : World) (row : Z) (token tid : string)
    (name : option string) : list event :=
  let url := teacher_page tid in
  let title := str_name name +:+ " レッスン開講通知" in
  NewPushbullet row token ::
  match Pushbullet_init w row token with
  | Some e => [Print (push_failed_line e)]
  | None =>
      PushLink row title url ::
      match push_link_result w row title url with
      | Some e => [Print (push_failed_line e)]
      | None => []
      end
  end.

(** How one loop iteration ends. *)
Inductive step_result : Type :=
  | Failed                 (* the probe gave the failure marker *)
  | Updated (c : Z)        (* the count was written and committed *)
  | Aborted (e : exn).     (* an exception left the loop *)

Definition decision_events (w : World) (row : Z) (user : UserData) (c : Z) : list event :=
  if bool_decide (c > last_available_count user)
  then notify_events w row (pushbullet_token user) (teacher_id user) (teacher_name user)
  else [].

Definition iteration (w : World) (ru : Z * UserData) : list event * step_result :=
  let row := ru.1 in
  let user := ru.2 in
  let start := [Sleep row; Get row (teacher_page (teacher_id user))] in
  match probe w row (teacher_id user) with
  | Raise e => (start, Aborted e)
  | Ok None => (start, Failed)
  | Ok (Some c) =>
      (start ++ decision_events w row user c ++ [Commit row [(row, c)]],
       match commit_error w row with Some e => Aborted e | None => Updated c end)
  end.

Fixpoint loop_result (w : World) (users : list (Z * UserData)) (n : Z) : Res Z :=
  match users with
  | [] => Ok n
  | ru :: rest =>
      match (iteration w ru).2 with
      | Failed => loop_result w rest (n + 1)
      | Updated _ => loop_result w rest n
      | Aborted e => Raise e
      end
  end.

Fixpoint loop_events (w : World) (users : list (Z * UserData)) : list event :=
  match users with
  | [] => []
  | ru :: rest =>
      (iteration w ru).1 ++
      match (iteration w ru).2 with
      | Aborted _ => []
      | _ => loop_events w rest
      end
  end.

Fixpoint loop_db (w : World) (users : list (Z * UserData))
    (d : gmap Z UserData) : gmap Z UserData :=
  match users with
  | [] => d
  | ru :: rest =>
      match (iteration w ru).2 with
      | Failed => loop_db w rest d
      | Updated c => loop_db w rest (alter (with_last_available_count c) ru.1 d)
      | Aborted _ => d
      end
  end.

(** The events a run appended to the trace. *)
Definition new_events (before after : State) : list event :=
  drop (length (trace before)) (trace after).

Definition is_notifier_call (row : Z) (e : event) : bool :=
  match e with NewPushbullet r _ => bool_decide (r = row) | _ => false end.

Definition is_push_link (row : Z) (e : event) : bool :=
  match e with PushLink r _ _ => bool_decide (r = row) | _ => false end.

Definition is_commit (row : Z) (e : event) : bool :=
  match e with Commit r _ => bool_decide (r = row) | _ => false end.

Definition is_get (row : Z) (e : event) : bool :=
  match e with Get r _ => bool_decide (r = row) | _ => false end.

Definition run_failed_line (e : exn) : string :=
  "⚠ 通知チェックでエラー発生: " +:+ str_exn e.

Definition skip_line : string := "🚨 一時的にチェック処理をスキップします".

(** The state one run of the job leaves behind: rows, streak, trace. *)
Definition run_db (w : World) (st : State) : gmap Z UserData :=
  match query_all_error w with
  | Some _ => database st
  | None => loop_db w (all_rows (database st)) (database st)
  end.

Definition run_streak (w : World) (st : State) : Z :=
  match query_all_error w with
  | Some _ => consecutive_errors st
  | None =>
      let users := all_rows (database st) in
      match loop_result w users 0 with
      | Raise _ => consecutive_errors st
      | Ok n =>
          if bool_decide (n = Z.of_nat (length users))
          then consecutive_errors st + 1
          else 0
      end
  end.

Definition final_lines (w : World) (st : State) : list event :=
  let users := all_rows (database st) in
  match loop_result w users 0 with
  | Raise e => [Print (run_failed_line e)]
  | Ok n =>
      if bool_decide (n = Z.of_nat (length users)) then
        let ce := consecutive_errors st + 1 in
        Print (full_failure_line ce) ::
        (if bool_decide (ce >= MAX_ERRORS) then [Print skip_line] else [])
      else []
  end.

Definition run_trace (w : World) (st : State) : list event :=
  match query_all_error w with
  | Some e => [Print (run_failed_line e)]
  | None => loop_events w (all_rows (database st)) ++ final_lines w st
  end.

Definition run_state (w : World) (st : State) : State :=
  mkState (run_db w st) ∅ (run_streak w st) (trace st ++ run_trace w st).

Definition no_abort (w : World) (l : list (Z * UserData)) : Prop :=
  Forall (λ ru, ∀ e, (iteration w ru).2 ≠ Aborted e) l.

(** [processed w st row user]: in the run of the job from [st] in world
    [w], the query succeeds, [row] is in the snapshot with the fields
    [user], and the loop, run on the snapshot up to and including [row],
    returns: it reaches [row] and finishes that iteration. *)
Definition processed (w : World) (st : State) (row : Z) (user : UserData) : Prop :=
  query_all_error w = None ∧
  ∃ us1 us2 n st1,
    all_rows (database st) = us1 ++ (row, user) :: us2 ∧
    for_users w (us1 ++ [(row, user)]) 0 (new_session st) = (Ok n, st1).

(** ** Sample data, for the examples *)

(** A teacher page with [n] open slots and one taken slot. *)
Definition page (name : string) (n : nat) : list node :=
  [Tag "html"
     [Tag "h1" [NavigableString name];
      Tag "table"
        (replicate n (Tag "td" [NavigableString "予約可"])
         ++ [Tag "td" [NavigableString "予約済"]])]].

Definition anna : UserData := mkUserData "101" (Some "Anna") "token-a" 0 "user_a" 0.
Definition ben : UserData := mkUserData "202" (Some "Ben") "token-b" 5 "user_b" 0.

Definition two_rows : gmap Z UserData := <[1 := anna]> (<[2 := ben]> ∅).

Definition start (d : gmap Z UserData) (streak : Z) : State := mkState d ∅ streak [].

(** The site answers 200 with [slots row] open slots, or 404. *)
Definition site (slots : Z → option nat) (row : Z) (url : string) : Res Response :=
  match slots row with
  | Some n => Ok (mkResponse 200 url (page "Teacher" n))
  | None => Ok (mkResponse 404 url [])
  end.

(** Row 1 shows three slots, row 2 five; everything else works. *)
Definition world_open : World :=
  mkWorld None (site (λ row, if bool_decide (row = 1) then Some 3%nat else Some 5%nat))
          (λ _ _, None) (λ _ _ _, None) (λ _, None).

(** The site is down for every row. *)
Definition world_down : World :=
  mkWorld None (site (λ _, None)) (λ _ _, None) (λ _ _ _, None) (λ _, None).

(** As [world_open], but Pushbullet rejects every token. *)
Definition world_push_fails : World :=
  mkWorld None (site (λ row, if bool_decide (row = 1) then Some 3%nat else Some 5%nat))
          (λ _ _, Some (Exception "InvalidKeyError" "invalid key"))
          (λ _ _ _, None) (λ _, None).

(** As [world_open], but row 2 is down. *)
Definition world_mixed : World :=
  mkWorld None (site (λ row, if bool_decide (row = 1) then Some 3%nat else None))
          (λ _ _, None) (λ _ _ _, None) (λ _, None).

(** Row 2 shows three slots; the request for row 1 ends in an error that
    is no RequestException. *)
Definition world_crash : World :=
  mkWorld None
          (λ row url, if bool_decide (row = 1)
                      then Raise (Exception "RecursionError" "maximum recursion depth exceeded")
                      else site (λ _, Some 3%nat) row url)
          (λ _ _, None) (λ _ _ _, None) (λ _, None).

(** Row 1 shows three slots, row 2 only two (it had five). *)
Definition world_drop : World :=
  mkWorld None (site (λ row, if bool_decide (row = 1) then Some 3%nat else Some 2%nat))
          (λ _ _, None) (λ _ _ _, None) (λ _, None).

(** Row 1 shows three slots; the request for row 2 ends in an error that
    is no RequestException. *)
Definition world_crash_late : World :=
  mkWorld None
          (λ row url, if bool_decide (row = 2)
                      then Raise (Exception "RecursionError" "maximum recursion depth exceeded")
                      else site (λ _, Some 3%nat) row url)
          (λ _ _, None) (λ _ _ _, None) (λ _, None).

(** An event that leaves the process: anything but a printed line. *)
Definition is_external (e : event) : bool :=
  match row_of e with Some _ => true | None => false end.

(** ** The routes that write the table

    A request is handled in one piece: the handler is a function from the
    request and the table to the new table and the reply.  Requests are
    taken one after the other. *)

Inductive method : Type := GET | POST.

Record Request : Type := mkRequest {
  req_method : method;
  session_user_id : option string;       (* session.get("user_id") *)
  form : string → option string;         (* request.form.get *)
  now : Z;                               (* datetime.utcnow() in the view *)
  now_at_insert : Z;                     (* datetime.utcnow(), the column default,
                                            read when the new row is inserted *)
  page_of : string → Res Response        (* what requests.get answers meanwhile *)
}.

Inductive Reply : Type :=
  | Redirect (location : string) (flashed : option (string * string))
  | Render (template : string) (all_data : list (Z * UserData))
           (total_teachers : Z) (uid : string)
  | InternalServerError (e : exn)        (* an exception left the view *)
  | MethodNotAllowed.                    (* the route does not take the method *)

(** [not s] is false for a non-empty string only. *)
Definition truthy (s : option string) : bool :=
  match s with Some s => bool_decide (s ≠ "") | None => false end.

(** query.filter_by(...).first(): of the rows that match, the one with
    the lowest id. *)
Definition first_row (P : UserData → Prop) `{!∀ u, Decision (P u)}
    (d : gmap Z UserData) : option (Z * UserData) :=
  head (filter (λ kv, P kv.2) (all_rows d)).

(** UserData.query.filter_by(user_id=user_id).count() *)
Definition owner_count (uid : string) (d : gmap Z UserData) : Z :=
  Z.of_nat (size (filter (λ kv : Z * UserData, user_id kv.2 = uid) d)).

(** UserData.query.filter_by(user_id=user_id).update({"last_accessed": t}) *)
Definition touch (uid : string) (t : Z) (d : gmap Z UserData) : gmap Z UserData :=
  (λ u, if bool_decide (user_id u = uid) then with_last_accessed t u else u) <$> d.

(** The key SQLite gives a new row: one more than the largest in use. *)
Definition next_id (d : gmap Z UserData) : Z :=
  1 + foldr Z.max 0 (map_to_list d).*1.

Section routes.
(** [str.isdigit] and [str.strip] of Python, on encoded strings. *)
Variable str_isdigit : string → bool.
Variable str_strip : string → string.

Definition get_teacher_name (get : string → Res Response)
    (teacher_id : string) : Res (option string) :=
  let load_url := teacher_page teacher_id in
  match get load_url with
  | Raise e => if is_RequestException e then Ok None else Raise e
  | Ok response =>
      if bool_decide (url response = LANDING_PAGE) then Ok None
      else
        let soup := content response in
        match find "h1" soup with
        | Some teacher_name_tag => Ok (Some (str_strip (text teacher_name_tag)))
        | None => Ok None
        end
  end.

Definition index (req : Request) (d : gmap Z UserData) : gmap Z UserData * Reply :=
  match session_user_id req with
  | None => (d, Redirect "/set_user" None)
  | Some uid =>
      if bool_decide (uid = "") then (d, Redirect "/set_user" None)
      else
        let d :=
          match first_row (λ u, user_id u = uid) d with
          | Some _ => touch uid (now req) d
          | None => d
          end in
        let total_teachers := owner_count uid d in
        match req_method req with
        | GET =>
            (d, Render "index.html"
                  (filter (λ kv, user_id kv.2 = uid) (all_rows d))
                  total_teachers uid)
        | POST =>
            if bool_decide (total_teachers >= 10) then
              (d, Redirect "/"
                    (Some ("このアカウントでは最大10件までしか登録できません！", "danger")))
            else
              match form req "teacher_id" with
              | None =>
                  (d, InternalServerError
                        (Exception "AttributeError"
                           "'NoneType' object has no attribute 'isdigit'"))
              | Some tid =>            (* teacher_id *)
                  let pushbullet_token := form req "pushbullet_token" in
                  if negb (str_isdigit tid) then
                    (d, Redirect "/"
                          (Some ("講師番号は数字のみで入力してください。", "danger")))
                  else if negb (truthy (Some tid))
                          || negb (truthy pushbullet_token) then
                    (d, Redirect "/"
                          (Some ("すべての項目を入力してください！", "danger")))
                  else
                    match first_row (λ u, teacher_id u = tid ∧ user_id u = uid) d with
                    | Some _ =>
                        (d, Redirect "/"
                              (Some ("この講師はすでに登録されています！", "warning")))
                    | None =>
                        match get_teacher_name (page_of req) tid with
                        | Raise e => (d, InternalServerError e)
                        | Ok teacher_name =>
                            if negb (truthy teacher_name) then
                              (d, Redirect "/"
                                    (Some ("講師情報が取得できませんでした。番号を確認してください。",
                                           "danger")))
                            else
                              let new_data :=
                                mkUserData tid teacher_name
                                  (default "" pushbullet_token) 0 uid
                                  (now_at_insert req) in
                              (<[next_id d := new_data]> d,
                               Redirect "/"
                                 (Some (str_name teacher_name +:+ " (講師番号: "
                                        +:+ tid +:+ ") を登録しました！",
                                        "success")))
                        end
                    end
              end
        end
  end.
End routes.

Definition delete_teacher (req : Request) (d : gmap Z UserData) : gmap Z UserData * Reply :=
  match req_method req with
  | GET => (d, Redirect "/" None)
  | POST =>
      let form_teacher_id := form req "teacher_id" in
      let teacher_data :=
        match form_teacher_id, session_user_id req with
        | Some tid, Some uid => first_row (λ u, teacher_id u = tid ∧ user_id u = uid) d
        | _, _ => None        (* a NULL never equals a column that is NOT NULL *)
        end in
      match teacher_data with
      | Some (row, _) =>
          (delete row d,
           Redirect "/" (Some ("講師番号 " +:+ str_name form_teacher_id +:+ " を削除しました！",
                               "success")))
      | None =>
          (d, Redirect "/" (Some ("講師番号 " +:+ str_name form_teacher_id +:+ " は存在しません。",
                                  "danger")))
      end
  end.

(** The route is registered with methods=["POST"]: a GET does not reach
    the view and is answered 405. *)
Definition reset_user (req : Request) (d : gmap Z UserData) : gmap Z UserData * Reply :=
  match req_method req with
  | GET => (d, MethodNotAllowed)
  | POST =>
      let d :=
        if truthy (session_user_id req)
        then filter (λ kv : Z * UserData, Some (user_id kv.2) ≠ session_user_id req) d
        else d in
      (d, Redirect "/set_user"
            (Some ("ユーザーIDとすべてのデータをリセットしました。新しく設定してください！",
                   "success")))
  end.

(** What happens to the process, one thing at a time.  The other routes
    (set_user, tutorial, download) do not write the table. *)
Inductive operation : Type :=
  | OpIndex (req : Request)
  | OpDeleteTeacher (req : Request)
  | OpResetUser (req : Request)
  | OpPoll (w : World).

Definition apply_operation (str_isdigit : string → bool) (str_strip : string → string)
    (op : operation) (st : State) : State :=
  match op with
  | OpIndex req => set_database (index str_isdigit str_strip req (database st)).1 st
  | OpDeleteTeacher req => set_database (delete_teacher req (database st)).1 st
  | OpResetUser req => set_database (reset_user req (database st)).1 st
  | OpPoll w => (check_teacher_availability w st).2
  end.

Definition apply_operations (str_isdigit : string → bool) (str_strip : string → string)
    (ops : list operation) (st : State) : State :=
  foldl (λ st op, apply_operation str_isdigit str_strip op st) st ops.

(** [str.isdigit] and [str.strip] on ASCII text, for the examples: the
    digits are 0 to 9, the whitespace is 0x09 to 0x0D, 0x1C to 0x1F and
    the space. *)
Definition ascii_isdigit (s : string) : bool :=
  bool_decide (s ≠ "")
  && forallb (λ a, (48 <=? Z.of_N (Ascii.N_of_ascii a)) && (Z.of_N (Ascii.N_of_ascii a) <=? 57))
       (String.list_ascii_of_string s).

Definition ascii_isspace (a : Ascii.ascii) : bool :=
  let n := Z.of_N (Ascii.N_of_ascii a) in
  ((9 <=? n) && (n <=? 13)) || ((28 <=? n) && (n <=? 32)).

Fixpoint ascii_lstrip (s : string) : string :=
  match s with
  | EmptyString => EmptyString
  | String a s' => if ascii_isspace a then ascii_lstrip s' else s
  end.

Fixpoint ascii_rstrip (s : string) : string :=
  match s with
  | EmptyString => EmptyString
  | String a s' =>
      match ascii_rstrip s' with
      | EmptyString => if ascii_isspace a then EmptyString else String a EmptyString
      | r => String a r
      end
  end.

Definition ascii_strip (s : string) : string := ascii_rstrip (ascii_lstrip s).

Definition ten_rows (uid : string) : gmap Z UserData :=
  list_to_map
    (imap (λ i tid, (Z.of_nat i + 1, mkUserData tid (Some "Teacher") "token" 0 uid 0))
       ["11"; "12"; "13"; "14"; "15"; "16"; "17"; "18"; "19"; "20"]).

Definition create_request (uid tid : string) : Request :=
  mkRequest POST (Some uid)
    (λ field, if bool_decide (field = "teacher_id") then Some tid
              else if bool_decide (field = "pushbullet_token") then Some "token"
              else None)
    100 101
    (λ url, Ok (mkResponse 200 url (page " Clara " 2))).

(** ** The route that sets the session's user id

    [set_user] reads the table and writes the session only: the result is
    the user id of the session after the request, and the reply.  The
    page of a GET takes no arguments. *)
Definition set_user (str_strip : string → string) (req : Request)
    (d : gmap Z UserData) : option string * Reply :=
  match req_method req with
  | POST =>
      let uid := str_strip (default "" (form req "user_id")) in
      let action := form req "action" in
      if bool_decide (uid = "") then
        (session_user_id req,
         Redirect "/set_user" (Some ("ユーザーIDを入力してください！", "danger")))
      else if bool_decide (action = Some "login") then
        match first_row (λ u, user_id u = uid) d with
        | Some _ =>
            (Some uid,
             Redirect "/" (Some ("ユーザーIDでログインしました: " +:+ uid, "success")))
        | None =>
            (session_user_id req,
             Redirect "/set_user"
               (Some ("このユーザーIDは存在しません。もう一度確認してください。", "danger")))
        end
      else if bool_decide (action = Some "register") then
        match first_row (λ u, user_id u = uid) d with
        | Some _ =>
            (session_user_id req,
             Redirect "/set_user"
               (Some ("このユーザーIDはすでに存在します。別のIDをお試しください。", "danger")))
        | None =>
            (Some uid,
             Redirect "/" (Some ("ユーザーIDを登録しました: " +:+ uid, "success")))
        end
      else
        (session_user_id req, Redirect "/set_user" (Some ("不正な操作です。", "danger")))
  | GET => (session_user_id req, Render "set_user.html" [] 0 "")
  end.

(** ** generate_user_id *)

(** string.ascii_lowercase + string.digits *)
Definition id_alphabet : list Ascii.ascii :=
  String.list_ascii_of_string "abcdefghijklmnopqrstuvwxyz0123456789".

(** random.choices(population, k=k): [k] draws with replacement; [draw i]
    is what the generator gives for the [i]-th draw, read as a position
    in the population. *)
Definition random_choices {A} (draw : nat → nat) (population : list A)
    (k : nat) : list A :=
  omap (λ i, population !! (draw i `mod` length population)%nat) (seq 0 k).

Definition generate_user_id (draw : nat → nat) (length : nat) : string :=
  "user_" +:+ String.string_of_list_ascii (random_choices draw id_alphabet length).

(** ** Properties of tables *)

(** No owner has the same teacher twice. *)
Definition unique_pairs (d : gmap Z UserData) : Prop :=
  ∀ i j u v, d !! i = Some u → d !! j = Some v →
    teacher_id u = teacher_id v → user_id u = user_id v → i = j.

(** No stored count is negative. *)
Definition counts_not_negative (d : gmap Z UserData) : Prop :=
  ∀ k u, d !! k = Some u → 0 <= last_available_count u.

Definition unique_pairsb (d : gmap Z UserData) : bool :=
  bool_decide (NoDup ((λ kv : Z * UserData, (teacher_id kv.2, user_id kv.2))
                        <$> map_to_list d)).

(** A request that logs in or registers. *)
Definition set_user_request (action uid : string) : Request :=
  mkRequest POST None
    (λ field, if bool_decide (field = "user_id") then Some uid
              else if bool_decide (field = "action") then Some action
              else None)
    100 100
    (λ url, Raise (RequestException "unreachable")).

Definition delete_request (uid tid : string) : Request :=
  mkRequest POST (Some uid)
    (λ field, if bool_decide (field = "teacher_id") then Some tid else None)
    200 200
    (λ url, Raise (RequestException "unreachable")).

(** As [world_open], but no commit goes through for row 1. *)
Definition world_commit_fails : World :=
  mkWorld None (site (λ row, if bool_decide (row = 1) then Some 3%nat else Some 5%nat))
          (λ _ _, None) (λ _ _ _, None)
          (λ row, if bool_decide (row = 1)
                  then Some (Exception "OperationalError" "database is locked")
                  else None).

(** ** Proofs *)

(** *** The order of the rows *)

Global Instance by_id_total : Total by_id.
Proof. intros a b. unfold by_id. lia. Qed.

Global Instance by_id_trans : Transitive by_id.
Proof. intros a b c. unfold by_id. lia. Qed.

Lemma all_rows_perm (d : gmap Z UserData) : all_rows d ≡ₚ map_to_list d.
Proof. apply merge_sort_Permutation. Qed.

Lemma elem_of_all_rows (d : gmap Z UserData) i x :
  (i, x) ∈ all_rows d ↔ d !! i = Some x.
Proof. by rewrite all_rows_perm, elem_of_map_to_list. Qed.

Lemma NoDup_fst_all_rows (d : gmap Z UserData) : NoDup (all_rows d).*1.
Proof. rewrite all_rows_perm. apply NoDup_fst_map_to_list. Qed.

Lemma all_rows_empty : all_rows ∅ = [].
Proof.
  apply Permutation_nil_r. rewrite all_rows_perm. by rewrite map_to_list_empty.
Qed.

Lemma length_all_rows (d : gmap Z UserData) : length (all_rows d) = size d.
Proof. by rewrite all_rows_perm, length_map_to_list. Qed.

(** The rows come by rising id: in a split of the list, the rows before
    have smaller ids, the rows after larger ones. *)
Lemma all_rows_split (d : gmap Z UserData) us1 row user us2 :
  all_rows d = us1 ++ (row, user) :: us2 →
  Forall (λ ru, ru.1 < row) us1 ∧ Forall (λ ru, row < ru.1) us2.
Proof.
  intros Hl.
  pose proof (StronglySorted_merge_sort by_id (map_to_list d)) as Hs.
  pose proof (NoDup_fst_all_rows d) as Hnd.
  unfold all_rows in Hl, Hnd. fold (all_rows d) in Hnd. rewrite Hl in Hs.
  unfold all_rows in Hnd. rewrite Hl in Hnd. clear Hl.
  rewrite fmap_app, fmap_cons in Hnd.
  apply NoDup_app in Hnd as (_ & Hdisj & Hnd2).
  apply NoDup_cons in Hnd2 as [Hnot2 _].
  split.
  - apply Forall_forall. intros [r u] Hin. cbn.
    assert (r ≠ row).
    { intros ->. eapply Hdisj; [|by left].
      exact (list_elem_of_fmap_2 fst _ _ Hin). }
    assert (by_id (r, u) (row, user)); [|unfold by_id in *; cbn in *; lia].
    clear -Hs Hin. induction us1 as [|a us1 IH]; [by apply elem_of_nil in Hin|].
    cbn in Hs. apply StronglySorted_inv in Hs as [Hs Ha].
    apply elem_of_cons in Hin as [->|Hin]; [|by apply IH].
    rewrite Forall_forall in Ha. apply Ha, elem_of_app. right. by left.
  - apply Forall_forall. intros [r u] Hin. cbn.
    assert (r ≠ row).
    { intros ->. apply Hnot2. exact (list_elem_of_fmap_2 fst _ _ Hin). }
    assert (by_id (row, user) (r, u)); [|unfold by_id in *; cbn in *; lia].
    clear -Hs Hin. induction us1 as [|a us1 IH].
    + cbn in Hs. apply StronglySorted_inv in Hs as [_ Ha].
      rewrite Forall_forall in Ha. by apply Ha.
    + cbn in Hs. apply StronglySorted_inv in Hs as [Hs _]. by apply IH.
Qed.


Ltac unfold_monad :=
  unfold print, may_raise in *;
  unfold mbind, mret, M_bind, M_ret, raise, emit, modify, get_state,
    try_except in *.

Lemma add_events_add_events es1 es2 st :
  add_events es2 (add_events es1 st) = add_events (es1 ++ es2) st.
Proof. unfold add_events; simpl. by rewrite app_assoc. Qed.

Lemma add_event_add_events e st : add_event e st = add_events [e] st.
Proof. reflexivity. Qed.

Lemma get_available_slots_eq w row tid st :
  get_available_slots w row tid st
  = (probe w row tid, add_events [Get row (teacher_page tid)] st).
Proof.
  unfold get_available_slots, probe. unfold_monad. simpl.
  destruct (requests_get w row (teacher_page tid)) as [resp|e]; simpl.
  - by destruct (bool_decide (status_code resp ≠ 200) || bool_decide (url resp = LANDING_PAGE)).
  - by destruct e.
Qed.

Lemma send_push_notification_eq w row token tid name st :
  send_push_notification w row token tid name st
  = (Ok tt, add_events (notify_events w row token tid name) st).
Proof.
  unfold send_push_notification, notify_events. unfold_monad. simpl.
  destruct (Pushbullet_init w row token) as [e|]; simpl.
  - unfold add_events, add_event; simpl. by rewrite <- !app_assoc.
  - destruct (push_link_result w row _ _) as [e|]; simpl;
      unfold add_events, add_event; simpl; by rewrite <- !app_assoc.
Qed.

Lemma flush_singleton row c d :
  flush {[row := c]} d = alter (with_last_available_count c) row d.
Proof.
  apply map_eq; intros i. unfold flush. rewrite lookup_merge.
  destruct (decide (i = row)) as [->|Hne].
  - rewrite lookup_singleton_eq, lookup_alter_eq. by destruct (d !! row).
  - rewrite lookup_singleton_ne, lookup_alter_ne by done. by destruct (d !! i).
Qed.

Lemma commit_singleton_eq w row c st :
  session st = {[row := c]} →
  commit w row st
  = match commit_error w row with
    | Some e => (Raise e, add_events [Commit row [(row, c)]] st)
    | None =>
        (Ok tt,
         set_session ∅
           (set_database (alter (with_last_available_count c) row (database st))
              (add_events [Commit row [(row, c)]] st)))
    end.
Proof.
  intros Hs. unfold commit. unfold_monad. cbv beta. rewrite Hs.
  rewrite map_to_list_singleton.
  destruct (commit_error w row) as [e|]; [done|].
  simpl. rewrite Hs, flush_singleton. done.
Qed.

(** The loop, one iteration at a time. *)
Lemma for_users_cons w row user rest n st :
  session st = ∅ →
  for_users w ((row, user) :: rest) n st
  = let st1 := add_events (iteration w (row, user)).1 st in
    match (iteration w (row, user)).2 with
    | Failed => for_users w rest (n + 1) st1
    | Updated c =>
        for_users w rest n
          (set_database (alter (with_last_available_count c) row (database st)) st1)
    | Aborted e =>
        (Raise e,
         match probe w row (teacher_id user) with
         | Ok (Some c) => set_session {[row := c]} st1
         | _ => st1
         end)
    end.
Proof.
  intros Hs. cbn [for_users]. unfold iteration. cbn [fst snd].
  unfold mbind at 1, M_bind at 1, emit at 1. cbv beta iota.
  unfold mbind at 1, M_bind at 1. rewrite get_available_slots_eq.
  destruct (probe w row (teacher_id user)) as [[c|]|e]; cbn [fst snd].
  - unfold decision_events.
    set (notif := if bool_decide (c > last_available_count user) then _ else _).
    assert (Hn : ∀ s, notif s
      = (Ok tt, add_events (if bool_decide (c > last_available_count user)
                            then notify_events w row (pushbullet_token user)
                                   (teacher_id user) (teacher_name user)
                            else []) s)).
    { intros s. unfold notif. case_bool_decide.
      - apply send_push_notification_eq.
      - unfold mret, M_ret, add_events. destruct s; simpl. by rewrite app_nil_r. }
    unfold mbind at 1, M_bind at 1. rewrite Hn.
    unfold mbind at 1, M_bind at 1, set_last_available_count at 1, modify at 1.
    unfold mbind at 1, M_bind at 1.
    rewrite (commit_singleton_eq w row c).
    2:{ simpl. rewrite Hs. apply insert_empty. }
    destruct (commit_error w row) as [e|].
    + f_equal. unfold add_events, add_event, set_session; simpl.
      rewrite Hs, insert_empty. by rewrite <- !app_assoc.
    + f_equal. unfold add_events, add_event, set_session, set_database; simpl.
      rewrite Hs. rewrite <- !app_assoc. simpl.
      destruct st; simpl in *; by subst.
  - f_equal. unfold add_events, add_event; simpl. by rewrite <- !app_assoc.
  - f_equal. unfold add_events, add_event; simpl. by rewrite <- !app_assoc.
Qed.

(** The loop in closed form. *)
Lemma for_users_spec w users : ∀ n st,
  session st = ∅ →
  ∃ s', for_users w users n st
        = (loop_result w users n,
           mkState (loop_db w users (database st)) s' (consecutive_errors st)
                   (trace st ++ loop_events w users))
        ∧ (∀ m, loop_result w users n = Ok m → s' = ∅).
Proof.
  induction users as [|[row user] rest IH]; intros n st Hs.
  - exists ∅. split; [|done]. simpl. rewrite app_nil_r.
    destruct st; simpl in *; by subst.
  - rewrite for_users_cons by done. cbn [loop_result loop_db loop_events fst snd].
    cbv zeta. destruct (iteration w (row, user)) as [evs res]. cbn [fst snd].
    destruct res as [|c|e].
    + destruct (IH (n + 1) (add_events evs st) Hs) as (s' & -> & Hok).
      exists s'. split; [|done]. simpl. by rewrite <- app_assoc.
    + destruct (IH n (set_database (alter (with_last_available_count c) row (database st))
                        (add_events evs st)) Hs) as (s' & -> & Hok).
      exists s'. split; [|done]. simpl. by rewrite <- app_assoc.
    + rewrite app_nil_r.
      destruct (probe w row (teacher_id user)) as [[c|]|e'];
        eexists; (split; [reflexivity|done]).
Qed.

Lemma check_body_eq w st :
  session st = ∅ →
  check_body w st
  = match query_all_error w with
    | Some e => (Raise e, st)
    | None =>
        match for_users w (all_rows (database st)) 0 st with
        | (Raise e, st1) => (Raise e, st1)
        | (Ok n, st1) =>
            if bool_decide (n = Z.of_nat (length (all_rows (database st)))) then
              let ce := consecutive_errors st1 + 1 in
              (Ok tt,
               add_events
                 (Print (full_failure_line ce) ::
                  (if bool_decide (ce >= MAX_ERRORS) then [Print skip_line] else []))
                 (set_consecutive_errors ce st1))
            else (Ok tt, set_consecutive_errors 0 st1)
        end
    end.
Proof.
  intros Hs. unfold check_body, query_all. unfold_monad. cbv beta.
  destruct (query_all_error w) as [e|]; [done|]. cbv beta iota.
  destruct (for_users w (all_rows (database st)) 0 st) as [[n|e] st1]; [|done].
  case_bool_decide; [|done]. cbn [consecutive_errors set_consecutive_errors].
  case_bool_decide; unfold add_events, add_event; simpl; [|done].
  by rewrite <- app_assoc.
Qed.

Lemma check_teacher_availability_eq w st :
  check_teacher_availability w st = (Ok tt, run_state w st).
Proof.
  unfold check_teacher_availability, with_app_context, try_except.
  rewrite check_body_eq by done.
  unfold run_state, run_db, run_streak, run_trace, final_lines.
  destruct (query_all_error w) as [e|]; [done|].
  destruct (for_users_spec w (all_rows (database st)) 0 (new_session st) eq_refl)
    as (s' & Hrun & Hok).
  change (database (new_session st)) with (database st) in *.
  change (consecutive_errors (new_session st)) with (consecutive_errors st) in *.
  change (trace (new_session st)) with (trace st) in *.
  rewrite Hrun. cbv zeta.
  destruct (loop_result w (all_rows (database st)) 0) as [n|e].
  - case_bool_decide.
    + unfold print, emit, add_events, add_event, new_session, set_session; simpl.
      by rewrite <- app_assoc.
    + unfold new_session, set_session, set_consecutive_errors; simpl. by rewrite app_nil_r.
  - unfold print, emit, add_events, add_event, new_session, set_session; simpl.
    by rewrite <- app_assoc.
Qed.

Lemma new_events_run w st :
  new_events st (check_teacher_availability w st).2 = run_trace w st.
Proof.
  rewrite check_teacher_availability_eq. unfold new_events, run_state. simpl.
  by rewrite drop_app_length.
Qed.

(** *** Structure of the loop *)

Lemma loop_result_no_abort w l : ∀ n m, loop_result w l n = Ok m → no_abort w l.
Proof.
  induction l as [|ru l IH]; intros n m H; [constructor|].
  simpl in H. destruct (iteration w ru).2 as [|c|e] eqn:E; [| |done].
  - constructor; [intros e; congruence | by eapply IH].
  - constructor; [intros e; congruence | by eapply IH].
Qed.

Lemma no_abort_loop_result w l : no_abort w l → ∀ n, ∃ m, loop_result w l n = Ok m.
Proof.
  induction 1 as [|ru l Hru _ IH]; intros n; simpl; [by eexists|].
  destruct (iteration w ru).2 as [|c|e] eqn:E; [done|done|].
  by destruct (Hru e).
Qed.

Lemma loop_result_app w l1 l2 : ∀ n,
  loop_result w (l1 ++ l2) n
  = match loop_result w l1 n with
    | Ok m => loop_result w l2 m
    | Raise e => Raise e
    end.
Proof.
  induction l1 as [|ru l1 IH]; intros n; [done|]. simpl.
  by destruct (iteration w ru).2.
Qed.

Lemma loop_events_app w l1 l2 :
  no_abort w l1 → loop_events w (l1 ++ l2) = loop_events w l1 ++ loop_events w l2.
Proof.
  induction 1 as [|ru l1 Hru _ IH]; [done|]. simpl.
  destruct (iteration w ru).2 as [|c|e] eqn:E;
    [by rewrite IH, app_assoc|by rewrite IH, app_assoc|by destruct (Hru e)].
Qed.

Lemma loop_db_app w l1 l2 :
  no_abort w l1 → ∀ d, loop_db w (l1 ++ l2) d = loop_db w l2 (loop_db w l1 d).
Proof.
  induction 1 as [|ru l1 Hru _ IH]; intros d; [done|]. simpl.
  destruct (iteration w ru).2 as [|c|e] eqn:E; [done|done|by destruct (Hru e)].
Qed.

(** A row changes only in an iteration of its own that ends in a commit. *)
Lemma loop_db_lookup_keep w row l : ∀ d,
  (∀ u c, (row, u) ∈ l → (iteration w (row, u)).2 ≠ Updated c) →
  loop_db w l d !! row = d !! row.
Proof.
  induction l as [|[r u] l IH]; intros d H; [done|]. simpl.
  assert (Hl : ∀ u c, (row, u) ∈ l → (iteration w (row, u)).2 ≠ Updated c).
  { intros u' c' Hin. apply H. by right. }
  destruct (iteration w (r, u)).2 as [|c|e] eqn:E; [by apply IH| |done].
  rewrite IH by done. destruct (decide (r = row)) as [->|Hne].
  - exfalso. eapply (H u c); [by left|done].
  - by rewrite lookup_alter_ne.
Qed.

Lemma loop_db_lookup_notin w row l d :
  row ∉ l.*1 → loop_db w l d !! row = d !! row.
Proof.
  intros Hnot. apply loop_db_lookup_keep. intros u c Hin _. apply Hnot.
  change row with (row, u).1. by apply list_elem_of_fmap_2.
Qed.

(** The rows of the table only ever change in [last_available_count]. *)
Lemma loop_db_lookup_shape w row l : ∀ d,
  loop_db w l d !! row = d !! row
  ∨ ∃ c u, d !! row = Some u ∧ loop_db w l d !! row = Some (with_last_available_count c u).
Proof.
  induction l as [|[r u] l IH]; intros d; [by left|]. simpl.
  destruct (iteration w (r, u)).2 as [|c|e]; [apply IH| |by left].
  destruct (IH (alter (with_last_available_count c) r d)) as [->|(c' & u' & Hu' & ->)];
    (destruct (decide (r = row)) as [->|Hne];
     [ rewrite ?lookup_alter_eq in *|rewrite ?lookup_alter_ne in * by done ]).
  - destruct (d !! row) as [u0|] eqn:Hd; [right|by left]. by exists c, u0.
  - by left.
  - destruct (d !! row) as [u0|] eqn:Hd; [|done]. right. exists c', u0.
    simpl in Hu'. injection Hu' as <-. done.
  - right. by exists c', u'.
Qed.

Ltac rows_tac :=
  repeat first [ apply List.Forall_nil
               | apply List.Forall_cons; [simpl; by auto|] ].

(** Every event of an iteration is a printed line or carries its row. *)
Lemma notify_events_rows w r token tid name :
  Forall (λ e, row_of e = Some r ∨ row_of e = None) (notify_events w r token tid name).
Proof.
  unfold notify_events. destruct (Pushbullet_init w r token);
    [|destruct (push_link_result w r _ _)]; rows_tac.
Qed.

Lemma iteration_rows w r u :
  Forall (λ e, row_of e = Some r ∨ row_of e = None) (iteration w (r, u)).1.
Proof.
  unfold iteration. cbn [fst snd].
  destruct (probe w r (teacher_id u)) as [[c|]|e]; cbn [fst]; rows_tac.
  apply Forall_app; split; [|rows_tac].
  unfold decision_events. case_bool_decide; [apply notify_events_rows|constructor].
Qed.

Lemma loop_events_rows w l :
  Forall (λ e, ∀ r, row_of e = Some r → r ∈ l.*1) (loop_events w l).
Proof.
  induction l as [|[r u] l IH]; [constructor|]. simpl.
  apply Forall_app; split.
  - eapply Forall_impl; [apply iteration_rows|].
    intros e [He| He] r' Hr'; [|congruence].
    rewrite He in Hr'. injection Hr' as <-. by left.
  - destruct (iteration w (r, u)).2; [| |constructor];
      (eapply Forall_impl; [apply IH|]; intros e He r' Hr'; right; by apply He).
Qed.

Section filters.
Context (P : event → Prop) `{!∀ e, Decision (P e)} (row : Z).
Hypothesis P_row : ∀ e, P e → row_of e = Some row.

Lemma filter_other_iteration w r u :
  r ≠ row → filter P (iteration w (r, u)).1 = [].
Proof.
  intros Hne. pose proof (iteration_rows w r u) as Hrows.
  induction Hrows as [|e l He _ IH]; [done|].
  rewrite filter_cons_False; [done|].
  intros HP. apply P_row in HP. destruct He; congruence.
Qed.

Lemma filter_other_loop w l :
  row ∉ l.*1 → filter P (loop_events w l) = [].
Proof.
  intros Hnot. pose proof (loop_events_rows w l) as Hrows.
  induction Hrows as [|e es He _ IH]; [done|].
  rewrite filter_cons_False; [done|].
  intros HP. apply P_row in HP. by apply Hnot, He.
Qed.

(** In a table with distinct keys, the events about [row] are those of
    its own iteration, provided the loop gets there. *)
Lemma filter_loop_split w us1 user us2 :
  NoDup ((us1 ++ (row, user) :: us2).*1) →
  no_abort w us1 →
  filter P (loop_events w (us1 ++ (row, user) :: us2))
  = filter P (iteration w (row, user)).1.
Proof.
  intros Hnd Hna. rewrite fmap_app, fmap_cons in Hnd.
  apply NoDup_app in Hnd as (_ & Hdisj & Hnd2).
  apply NoDup_cons in Hnd2 as [Hnot2 _].
  rewrite loop_events_app, filter_app by done.
  rewrite filter_other_loop.
  2:{ intros Hin. eapply Hdisj; [done|]. by left. }
  simpl. rewrite filter_app.
  destruct (iteration w (row, user)).2;
    [rewrite filter_other_loop by done|rewrite filter_other_loop by done|];
    by rewrite ?filter_nil, app_nil_r.
Qed.
End filters.

(** *** Subscriptions the loop gets through *)

Lemma processed_inv w st row user :
  processed w st row user →
  query_all_error w = None ∧
  database st !! row = Some user ∧
  (∀ e, (iteration w (row, user)).2 ≠ Aborted e) ∧
  ∃ us1 us2,
    all_rows (database st) = us1 ++ (row, user) :: us2 ∧
    NoDup ((us1 ++ (row, user) :: us2).*1) ∧
    no_abort w us1.
Proof.
  intros (Hq & us1 & us2 & n & st1 & Hl & Hrun).
  destruct (for_users_spec w (us1 ++ [(row, user)]) 0 (new_session st) eq_refl)
    as (s' & Hspec & _).
  rewrite Hrun in Hspec. injection Hspec as Hres _.
  symmetry in Hres. apply loop_result_no_abort in Hres.
  apply Forall_app in Hres as [Hna Hrow].
  apply List.Forall_inv in Hrow.
  split; [done|]. split.
  { apply elem_of_all_rows. rewrite Hl. apply elem_of_app. right. by left. }
  split; [exact Hrow|]. exists us1, us2. split; [done|]. split; [|done].
  rewrite <- Hl. apply NoDup_fst_all_rows.
Qed.

Lemma processed_db w st row user c :
  processed w st row user →
  (iteration w (row, user)).2 = Updated c →
  database (check_teacher_availability w st).2 !! row
  = Some (with_last_available_count c user).
Proof.
  intros Hp Hit. apply processed_inv in Hp as (Hq & Hdb & _ & us1 & us2 & Hl & Hnd & Hna).
  rewrite check_teacher_availability_eq. cbn [snd]. unfold run_state, run_db.
  cbn [database]. rewrite Hq, Hl.
  rewrite fmap_app, fmap_cons in Hnd.
  apply NoDup_app in Hnd as (_ & Hdisj & Hnd2).
  apply NoDup_cons in Hnd2 as [Hnot2 _].
  rewrite loop_db_app by done. cbn [loop_db]. rewrite Hit. cbn [fst].
  rewrite loop_db_lookup_notin by done.
  rewrite lookup_alter_eq, loop_db_lookup_notin.
  - by rewrite Hdb.
  - intros Hin. eapply Hdisj; [done|]. by left.
Qed.

Lemma final_lines_rows w st : Forall (λ e, row_of e = None) (final_lines w st).
Proof.
  unfold final_lines. destruct (loop_result w _ 0); [|by repeat constructor].
  cbv zeta. repeat case_bool_decide; by repeat constructor.
Qed.

Lemma processed_events (P : event → Prop) `{!∀ e, Decision (P e)} w st row user :
  (∀ e, P e → row_of e = Some row) →
  processed w st row user →
  filter P (new_events st (check_teacher_availability w st).2)
  = filter P (iteration w (row, user)).1.
Proof.
  intros HP Hp. apply processed_inv in Hp as (Hq & Hdb & _ & us1 & us2 & Hl & Hnd & Hna).
  rewrite new_events_run. unfold run_trace. rewrite Hq, Hl, filter_app.
  rewrite (filter_loop_split P row HP) by done.
  assert (filter P (final_lines w st) = []) as ->; [|by rewrite app_nil_r].
  pose proof (final_lines_rows w st) as Hrows.
  induction Hrows as [|e l He _ IH]; [done|].
  rewrite filter_cons_False; [done|]. intros He'. apply HP in He'. congruence.
Qed.

Lemma is_notifier_call_row row e : is_notifier_call row e → row_of e = Some row.
Proof. destruct e; simpl; try done. intros H. by apply bool_decide_unpack in H as ->. Qed.

Lemma is_push_link_row row e : is_push_link row e → row_of e = Some row.
Proof. destruct e; simpl; try done. intros H. by apply bool_decide_unpack in H as ->. Qed.

Lemma is_commit_row row e : is_commit row e → row_of e = Some row.
Proof. destruct e; simpl; try done. intros H. by apply bool_decide_unpack in H as ->. Qed.

Lemma is_get_row row e : is_get row e → row_of e = Some row.
Proof. destruct e; simpl; try done. intros H. by apply bool_decide_unpack in H as ->. Qed.

Lemma probe_of_call w row tid st :
  (get_available_slots w row tid st).1 = probe w row tid.
Proof. by rewrite get_available_slots_eq. Qed.

(** The events of an iteration whose probe gave a count. *)
Lemma iteration_counted w row user c :
  probe w row (teacher_id user) = Ok (Some c) →
  (iteration w (row, user)).1
  = [Sleep row; Get row (teacher_page (teacher_id user))]
    ++ decision_events w row user c ++ [Commit row [(row, c)]]
  ∧ (iteration w (row, user)).2
    = match commit_error w row with Some e => Aborted e | None => Updated c end.
Proof. intros H. unfold iteration. cbn [fst snd]. by rewrite H. Qed.

Ltac filter_events :=
  repeat first
    [ rewrite filter_nil
    | rewrite filter_app
    | rewrite filter_cons_True by (simpl; by rewrite ?bool_decide_eq_true_2)
    | rewrite filter_cons_False by (simpl; by auto) ].

(** ** The claims *)

(** C1.  A subscription the loop gets through, whose probe returns a count
    [c] above the stored one: the run calls the notifier exactly once for
    it; the link pushed, if Pushbullet accepts the token, has the title
    made of the row's teacher name and the address made of its teacher id
    (none is pushed otherwise); and after the run the row holds the count
    [c], its other fields as before. *)
Theorem increase_notifies_once_and_stores w st row user c :
  processed w st row user →
  (get_available_slots w row (teacher_id user) st).1 = Ok (Some c) →
  c > last_available_count user →
  let st' := (check_teacher_availability w st).2 in
  filter (is_notifier_call row) (new_events st st')
    = [NewPushbullet row (pushbullet_token user)]
  ∧ filter (is_push_link row) (new_events st st')
    = match Pushbullet_init w row (pushbullet_token user) with
      | None =>
          [PushLink row
             (match teacher_name user with Some name => name | None => "None" end
              +:+ " レッスン開講通知")
             ("https://eikaiwa.dmm.com/teacher/index/" +:+ teacher_id user +:+ "/")]
      | Some _ => []
      end
  ∧ database st' !! row
    = Some (mkUserData (teacher_id user) (teacher_name user) (pushbullet_token user)
              c (user_id user) (last_accessed user)).
Proof.
  intros Hp Hprobe Hgt st'. subst st'. rewrite probe_of_call in Hprobe.
  destruct (iteration_counted w row user c Hprobe) as [Hev Hres].
  pose proof (processed_inv _ _ _ _ Hp) as (_ & _ & Hna & _).
  destruct (commit_error w row) as [e|]; [by destruct (Hna e)|].
  rewrite (processed_events _ w st row user (is_notifier_call_row row) Hp).
  rewrite (processed_events _ w st row user (is_push_link_row row) Hp).
  rewrite (processed_db w st row user c Hp Hres), Hev.
  unfold decision_events, notify_events, str_name, teacher_page.
  rewrite bool_decide_eq_true_2 by done.
  split; [|split; [|done]].
  - destruct (Pushbullet_init w row _); [|destruct (push_link_result w row _ _)];
      by filter_events.
  - destruct (Pushbullet_init w row _); [|destruct (push_link_result w row _ _)];
      by filter_events.
Qed.

Lemma increase_notifies_once_and_stores_witness :
  processed world_open (start two_rows 0) 1 anna
  ∧ (get_available_slots world_open 1 (teacher_id anna) (start two_rows 0)).1 = Ok (Some 3)
  ∧ 3 > last_available_count anna
  ∧ filter (is_push_link 1)
      (new_events (start two_rows 0)
         (check_teacher_availability world_open (start two_rows 0)).2)
    = [PushLink 1 "Anna レッスン開講通知" "https://eikaiwa.dmm.com/teacher/index/101/"]
  ∧ database (check_teacher_availability world_open (start two_rows 0)).2 !! 1
    = Some (mkUserData "101" (Some "Anna") "token-a" 3 "user_a" 0).
Proof.
  assert (Hp : processed world_open (start two_rows 0) 1 anna).
  { split; [reflexivity|]. exists [], [(2, ben)], 0.
    eexists. split; vm_compute; reflexivity. }
  assert (Hs : (get_available_slots world_open 1 (teacher_id anna) (start two_rows 0)).1
               = Ok (Some 3)) by (vm_compute; reflexivity).
  assert (Hc : 3 > last_available_count anna) by (vm_compute; reflexivity).
  split; [exact Hp|]. split; [exact Hs|]. split; [exact Hc|].
  exact (proj2 (increase_notifies_once_and_stores
                  world_open (start two_rows 0) 1 anna 3 Hp Hs Hc)).
Defined.

(** C3.  A subscription the loop gets through, whose probe returns a count
    [c] not above the stored one: the run makes no notifier call and
    pushes no link for it, and after the run the row holds the count [c]
    all the same, its other fields as before. *)
Theorem no_increase_stores_silently w st row user c :
  processed w st row user →
  (get_available_slots w row (teacher_id user) st).1 = Ok (Some c) →
  c <= last_available_count user →
  let st' := (check_teacher_availability w st).2 in
  filter (is_notifier_call row) (new_events st st') = []
  ∧ filter (is_push_link row) (new_events st st') = []
  ∧ database st' !! row
    = Some (mkUserData (teacher_id user) (teacher_name user) (pushbullet_token user)
              c (user_id user) (last_accessed user)).
Proof.
  intros Hp Hprobe Hle st'. subst st'. rewrite probe_of_call in Hprobe.
  destruct (iteration_counted w row user c Hprobe) as [Hev Hres].
  pose proof (processed_inv _ _ _ _ Hp) as (_ & _ & Hna & _).
  destruct (commit_error w row) as [e|]; [by destruct (Hna e)|].
  rewrite (processed_events _ w st row user (is_notifier_call_row row) Hp).
  rewrite (processed_events _ w st row user (is_push_link_row row) Hp).
  rewrite (processed_db w st row user c Hp Hres), Hev.
  unfold decision_events. rewrite bool_decide_eq_false_2 by lia.
  repeat split; by filter_events.
Qed.

Lemma no_increase_stores_silently_witness :
  processed world_drop (start two_rows 0) 2 ben
  ∧ (get_available_slots world_drop 2 (teacher_id ben) (start two_rows 0)).1 = Ok (Some 2)
  ∧ 2 <= last_available_count ben
  ∧ filter (is_notifier_call 2)
      (new_events (start two_rows 0)
         (check_teacher_availability world_drop (start two_rows 0)).2) = []
  ∧ database (check_teacher_availability world_drop (start two_rows 0)).2 !! 2
    = Some (mkUserData "202" (Some "Ben") "token-b" 2 "user_b" 0).
Proof.
  assert (Hp : processed world_drop (start two_rows 0) 2 ben).
  { split; [reflexivity|]. exists [(1, anna)], [], 0.
    eexists. split; vm_compute; reflexivity. }
  assert (Hs : (get_available_slots world_drop 2 (teacher_id ben) (start two_rows 0)).1
               = Ok (Some 2)) by (vm_compute; reflexivity).
  assert (Hc : 2 <= last_available_count ben) by (vm_compute; congruence).
  split; [exact Hp|]. split; [exact Hs|]. split; [exact Hc|].
  destruct (no_increase_stores_silently world_drop (start two_rows 0) 2 ben 2 Hp Hs Hc)
    as (H1 & _ & H3).
  split; [exact H1|exact H3].
Defined.

(** *** The loop goes on after each iteration *)

Lemma send_push_notification_ok w row token tid name st :
  ∃ st', send_push_notification w row token tid name st = (Ok tt, st').
Proof. rewrite send_push_notification_eq. by eexists. Qed.

Lemma for_users_app w l1 l2 : ∀ n st,
  for_users w (l1 ++ l2) n st
  = match for_users w l1 n st with
    | (Ok m, st1) => for_users w l2 m st1
    | (Raise e, st1) => (Raise e, st1)
    end.
Proof.
  induction l1 as [|[r u] l1 IH]; intros n st; [done|].
  cbn [app for_users]. unfold mbind, M_bind.
  destruct (emit (Sleep r) st) as [[[]|e] s1]; [|done].
  destruct (get_available_slots w r (teacher_id u) s1) as [[[c|]|e] s2]; [| |done].
  - destruct ((if bool_decide (c > last_available_count u)
               then send_push_notification w r (pushbullet_token u) (teacher_id u)
                      (teacher_name u)
               else mret ()) s2) as [[[]|e] s3]; [|done].
    destruct (set_last_available_count r c s3) as [[[]|e] s4]; [|done].
    destruct (commit w r s4) as [[[]|e] s5]; [|done].
    apply IH.
  - apply IH.
Qed.

Lemma for_users_failed w row user rest n st :
  probe w row (teacher_id user) = Ok None →
  for_users w ((row, user) :: rest) n st
  = for_users w rest (n + 1)
      (add_events [Sleep row; Get row (teacher_page (teacher_id user))] st).
Proof.
  intros H. cbn [for_users]. unfold mbind, M_bind, emit.
  rewrite get_available_slots_eq, H. f_equal.
  unfold add_events, add_event; simpl. by rewrite <- app_assoc.
Qed.

Lemma filter_loop_nil (P : event → Prop) `{!∀ e, Decision (P e)} w row l :
  (∀ e, P e → row_of e = Some row) →
  (∀ u, (row, u) ∈ l → filter P (iteration w (row, u)).1 = []) →
  filter P (loop_events w l) = [].
Proof.
  intros HP. induction l as [|[r u] l IH]; intros Hl; [done|]. simpl.
  rewrite filter_app.
  assert (filter P (iteration w (r, u)).1 = []) as ->.
  { destruct (decide (r = row)) as [->|Hne]; [apply Hl; by left|].
    by apply (filter_other_iteration P row HP). }
  destruct (iteration w (r, u)).2; [| |done]; apply IH; intros u' Hu'; apply Hl; by right.
Qed.

Lemma filter_run_nil (P : event → Prop) `{!∀ e, Decision (P e)} w st row :
  (∀ e, P e → row_of e = Some row) →
  (∀ u, database st !! row = Some u → filter P (iteration w (row, u)).1 = []) →
  filter P (new_events st (check_teacher_availability w st).2) = [].
Proof.
  intros HP Hrow. rewrite new_events_run. unfold run_trace.
  assert (Hprint : ∀ l, Forall (λ e, row_of e = None) l → filter P l = []).
  { induction 1 as [|e l He _ IH]; [done|].
    rewrite filter_cons_False; [done|]. intros He'. apply HP in He'. congruence. }
  destruct (query_all_error w); [apply Hprint; by repeat constructor|].
  rewrite filter_app, (Hprint _ (final_lines_rows w st)), app_nil_r.
  apply (filter_loop_nil P w row); [done|].
  intros u Hu. apply Hrow. by apply elem_of_all_rows.
Qed.

Lemma run_db_keep w st row :
  (∀ u c, database st !! row = Some u → (iteration w (row, u)).2 ≠ Updated c) →
  database (check_teacher_availability w st).2 !! row = database st !! row.
Proof.
  intros H. rewrite check_teacher_availability_eq. cbn [snd]. unfold run_state, run_db.
  cbn [database]. destruct (query_all_error w); [done|].
  apply loop_db_lookup_keep. intros u c Hin. apply H. by apply elem_of_all_rows.
Qed.

(** C4.  A subscription whose probe gives the failure marker: its row is
    the same after the run, the run makes no notifier call, pushes no link
    and commits nothing for it, and the loop goes on with the rows after
    it, having only slept, sent the request, and counted one failure. *)
Theorem probe_failure_is_local w st row user :
  database st !! row = Some user →
  (get_available_slots w row (teacher_id user) st).1 = Ok None →
  let st' := (check_teacher_availability w st).2 in
  database st' !! row = Some user
  ∧ filter (is_notifier_call row) (new_events st st') = []
  ∧ filter (is_push_link row) (new_events st st') = []
  ∧ filter (is_commit row) (new_events st st') = []
  ∧ ∀ rest n st0,
      for_users w ((row, user) :: rest) n st0
      = for_users w rest (n + 1)
          (add_events [Sleep row; Get row (teacher_page (teacher_id user))] st0).
Proof.
  intros Hdb Hprobe st'. subst st'. rewrite probe_of_call in Hprobe.
  assert (Hit : ∀ u, database st !! row = Some u →
                iteration w (row, u)
                = ([Sleep row; Get row (teacher_page (teacher_id user))], Failed)).
  { intros u Hu. rewrite Hdb in Hu. injection Hu as <-.
    unfold iteration. cbn [fst snd]. by rewrite Hprobe. }
  split; [|split; [|split; [|split]]].
  - rewrite run_db_keep; [done|]. intros u c Hu. by rewrite (Hit u Hu).
  - apply (filter_run_nil _ w st row (is_notifier_call_row row)).
    intros u Hu. rewrite (Hit u Hu). by filter_events.
  - apply (filter_run_nil _ w st row (is_push_link_row row)).
    intros u Hu. rewrite (Hit u Hu). by filter_events.
  - apply (filter_run_nil _ w st row (is_commit_row row)).
    intros u Hu. rewrite (Hit u Hu). by filter_events.
  - intros rest n st0. by apply for_users_failed.
Qed.

Lemma probe_failure_is_local_witness :
  database (start two_rows 0) !! 2 = Some ben
  ∧ (get_available_slots world_mixed 2 (teacher_id ben) (start two_rows 0)).1 = Ok None
  ∧ database (check_teacher_availability world_mixed (start two_rows 0)).2 !! 2 = Some ben.
Proof.
  assert (Hd : database (start two_rows 0) !! 2 = Some ben) by (vm_compute; reflexivity).
  assert (Hs : (get_available_slots world_mixed 2 (teacher_id ben) (start two_rows 0)).1
               = Ok None) by (vm_compute; reflexivity).
  split; [exact Hd|]. split; [exact Hs|].
  exact (proj1 (probe_failure_is_local world_mixed (start two_rows 0) 2 ben Hd Hs)).
Defined.

(** *** One iteration that commits *)

Lemma for_users_ok_state w l n st m st1 :
  session st = ∅ →
  for_users w l n st = (Ok m, st1) →
  st1 = mkState (loop_db w l (database st)) ∅ (consecutive_errors st)
                (trace st ++ loop_events w l)
  ∧ loop_result w l n = Ok m.
Proof.
  intros Hs Hrun. destruct (for_users_spec w l n st Hs) as (s' & Hspec & Hok).
  rewrite Hrun in Hspec. injection Hspec as Hres ->.
  rewrite (Hok m) by done. done.
Qed.

Lemma iteration_commits w st row user c us1 us2 n1 st1 :
  all_rows (database st) = us1 ++ (row, user) :: us2 →
  for_users w us1 0 (new_session st) = (Ok n1, st1) →
  probe w row (teacher_id user) = Ok (Some c) →
  commit_error w row = None →
  ∃ st2,
    for_users w (us1 ++ [(row, user)]) 0 (new_session st) = (Ok n1, st2)
    ∧ for_users w (us1 ++ (row, user) :: us2) 0 (new_session st)
      = for_users w us2 n1 st2
    ∧ trace st2
      = trace st1 ++ [Sleep row; Get row (teacher_page (teacher_id user))]
        ++ decision_events w row user c ++ [Commit row [(row, c)]]
    ∧ database st2 = alter (with_last_available_count c) row (database st1)
    ∧ database st2 !! row = Some (with_last_available_count c user)
    ∧ session st2 = ∅
    ∧ trace st1 = trace st ++ loop_events w us1.
Proof.
  intros Hl Hrun Hprobe Hcommit.
  destruct (for_users_ok_state w us1 0 (new_session st) n1 st1 eq_refl Hrun)
    as [Hst1 Hres1].
  change (database (new_session st)) with (database st) in Hst1.
  change (consecutive_errors (new_session st)) with (consecutive_errors st) in Hst1.
  change (trace (new_session st)) with (trace st) in Hst1.
  destruct (iteration_counted w row user c Hprobe) as [Hev Hres].
  rewrite Hcommit in Hres.
  assert (Hstep : ∀ rest,
    for_users w ((row, user) :: rest) n1 st1
    = for_users w rest n1
        (set_database (alter (with_last_available_count c) row (database st1))
           (add_events (iteration w (row, user)).1 st1))).
  { intros rest. rewrite for_users_cons by (by rewrite Hst1). cbv zeta.
    by rewrite Hres. }
  eexists. split; [|split; [|split; [|split; [|split; [|split]]]]].
  - rewrite for_users_app, Hrun, Hstep. reflexivity.
  - rewrite for_users_app, Hrun, Hstep. reflexivity.
  - simpl. by rewrite Hev.
  - reflexivity.
  - cbn [database set_database]. rewrite lookup_alter_eq, Hst1. cbn [database].
    pose proof (NoDup_fst_all_rows (database st)) as Hnd.
    rewrite Hl, fmap_app in Hnd. apply NoDup_app in Hnd as (_ & Hdisj & _).
    rewrite loop_db_lookup_notin.
    + assert (database st !! row = Some user) as ->; [|done].
      apply elem_of_all_rows. rewrite Hl. apply elem_of_app. right. by left.
    + intros Hin. eapply Hdisj; [done|]. by left.
  - simpl. by rewrite Hst1.
  - by rewrite Hst1.
Qed.

(** Every commit of a run flushes one row, the row of its iteration. *)
Lemma iteration_commit_one w r u r' fl :
  Commit r' fl ∈ (iteration w (r, u)).1 → ∃ c, r' = r ∧ fl = [(r, c)].
Proof.
  unfold iteration. cbn [fst snd].
  destruct (probe w r (teacher_id u)) as [[c|]|e]; cbn [fst]; intros Hin.
  - apply elem_of_cons in Hin as [?|Hin]; [done|].
    apply elem_of_cons in Hin as [?|Hin]; [done|].
    apply elem_of_app in Hin as [Hin|Hin].
    + unfold decision_events, notify_events in Hin. exfalso.
      destruct (bool_decide _); [|by apply elem_of_nil in Hin].
      destruct (Pushbullet_init w r _); [|destruct (push_link_result w r _ _)];
        repeat (apply elem_of_cons in Hin as [?|Hin]; [done|]);
        by apply elem_of_nil in Hin.
    + apply elem_of_cons in Hin as [Heq|Hin]; [|by apply elem_of_nil in Hin].
      injection Heq as -> ->. by exists c.
  - repeat (apply elem_of_cons in Hin as [?|Hin]; [done|]). by apply elem_of_nil in Hin.
  - repeat (apply elem_of_cons in Hin as [?|Hin]; [done|]). by apply elem_of_nil in Hin.
Qed.

Lemma run_commit_one w st r fl :
  Commit r fl ∈ new_events st (check_teacher_availability w st).2 →
  ∃ c, fl = [(r, c)].
Proof.
  rewrite new_events_run. unfold run_trace.
  destruct (query_all_error w).
  { intros Hin. apply elem_of_cons in Hin as [?|Hin]; [done|]. by apply elem_of_nil in Hin. }
  intros Hin. apply elem_of_app in Hin as [Hin|Hin].
  - induction (all_rows (database st)) as [|[r' u] l IH]; simpl in Hin.
    { by apply elem_of_nil in Hin. }
    apply elem_of_app in Hin as [Hin|Hin].
    + apply iteration_commit_one in Hin as (c & -> & ->). by exists c.
    + destruct (iteration w (r', u)).2; [by apply IH|by apply IH|].
      by apply elem_of_nil in Hin.
  - exfalso. pose proof (final_lines_rows w st) as Hrows.
    rewrite Forall_forall in Hrows. by apply Hrows in Hin.
Qed.

Lemma new_events_loop w l n st m st2 :
  for_users w l n (new_session st) = (Ok m, st2) →
  new_events st st2 = loop_events w l.
Proof.
  intros Hrun.
  destruct (for_users_ok_state w l n (new_session st) m st2 eq_refl Hrun) as [-> _].
  unfold new_events. simpl. by rewrite drop_app_length.
Qed.

Lemma decision_events_kind w row user c :
  Forall (λ e, is_notifier_call row e ∨ is_push_link row e ∨ row_of e = None)
         (decision_events w row user c).
Proof.
  unfold decision_events, notify_events. case_bool_decide; [|constructor].
  destruct (Pushbullet_init w row _); [|destruct (push_link_result w row _ _)];
    repeat first
      [ apply List.Forall_nil
      | apply List.Forall_cons;
        [simpl; rewrite ?bool_decide_eq_true_2 by done; by auto|] ].
Qed.

(** C5.  The notifier fails for a subscription whose count went up (the
    loop has reached it, and its commit works): the notifier call returns
    normally, having changed nothing but the trace, where the failure is
    the last line; the iteration ends, the row holds the new count [c],
    and the loop goes on with the rows after it; the run returns normally
    with that count stored, and the notifier was called once, not again. *)
Theorem notifier_failure_is_contained w st row user c us1 us2 n1 st1 :
  query_all_error w = None →
  all_rows (database st) = us1 ++ (row, user) :: us2 →
  for_users w us1 0 (new_session st) = (Ok n1, st1) →
  (get_available_slots w row (teacher_id user) st).1 = Ok (Some c) →
  c > last_available_count user →
  commit_error w row = None →
  Pushbullet_init w row (pushbullet_token user) ≠ None
  ∨ push_link_result w row
      (match teacher_name user with Some name => name | None => "None" end
       +:+ " レッスン開講通知")
      ("https://eikaiwa.dmm.com/teacher/index/" +:+ teacher_id user +:+ "/") ≠ None →
  (∀ s, ∃ e s',
     send_push_notification w row (pushbullet_token user) (teacher_id user)
       (teacher_name user) s = (Ok tt, s')
     ∧ database s' = database s ∧ session s' = session s
     ∧ consecutive_errors s' = consecutive_errors s
     ∧ last (trace s') = Some (Print (push_failed_line e)))
  ∧ (∃ st2,
       for_users w (us1 ++ [(row, user)]) 0 (new_session st) = (Ok n1, st2)
       ∧ for_users w (us1 ++ (row, user) :: us2) 0 (new_session st)
         = for_users w us2 n1 st2
       ∧ database st2 !! row
         = Some (mkUserData (teacher_id user) (teacher_name user)
                   (pushbullet_token user) c (user_id user) (last_accessed user)))
  ∧ (check_teacher_availability w st).1 = Ok tt
  ∧ database (check_teacher_availability w st).2 !! row
    = Some (mkUserData (teacher_id user) (teacher_name user) (pushbullet_token user)
              c (user_id user) (last_accessed user))
  ∧ filter (is_notifier_call row)
      (new_events st (check_teacher_availability w st).2)
    = [NewPushbullet row (pushbullet_token user)].
Proof.
  intros Hq Hl Hrun Hprobe Hgt Hcommit Hfail. rewrite probe_of_call in Hprobe.
  destruct (iteration_commits w st row user c us1 us2 n1 st1 Hl Hrun Hprobe Hcommit)
    as (st2 & Hrun2 & Hgo & Htr & _ & Hrow & _ & _).
  assert (Hp : processed w st row user).
  { split; [done|]. by exists us1, us2, n1, st2. }
  destruct (iteration_counted w row user c Hprobe) as [Hev Hres].
  rewrite Hcommit in Hres.
  split; [|split; [|split; [|split]]].
  - intros s. rewrite send_push_notification_eq. unfold notify_events.
    destruct (Pushbullet_init w row _) as [e|] eqn:Hinit.
    + exists e. eexists. split; [reflexivity|]. simpl.
      by rewrite last_app.
    + unfold str_name, teacher_page.
      destruct (push_link_result w row _ _) as [e|] eqn:Hpush; [|by destruct Hfail].
      exists e. eexists. split; [reflexivity|]. simpl.
      by rewrite last_app.
  - by exists st2.
  - by rewrite check_teacher_availability_eq.
  - by apply processed_db.
  - rewrite (processed_events _ w st row user (is_notifier_call_row row) Hp), Hev.
    unfold decision_events, notify_events. rewrite bool_decide_eq_true_2 by done.
    destruct (Pushbullet_init w row _); [|destruct (push_link_result w row _ _)];
      by filter_events.
Qed.

Lemma notifier_failure_is_contained_witness :
  database (check_teacher_availability world_push_fails (start two_rows 0)).2 !! 1
  = Some (mkUserData "101" (Some "Anna") "token-a" 3 "user_a" 0)
  ∧ filter (is_notifier_call 1)
      (new_events (start two_rows 0)
         (check_teacher_availability world_push_fails (start two_rows 0)).2)
    = [NewPushbullet 1 "token-a"].
Proof.
  refine (proj2 (proj2 (proj2
    (notifier_failure_is_contained world_push_fails (start two_rows 0) 1 anna 3
       [] [(2, ben)] 0
       (for_users world_push_fails [] 0 (new_session (start two_rows 0))).2
       _ _ _ _ _ _ _)))).
  - reflexivity.
  - vm_compute; reflexivity.
  - vm_compute; reflexivity.
  - vm_compute; reflexivity.
  - vm_compute; reflexivity.
  - reflexivity.
  - left. vm_compute. discriminate.
Defined.

(** C9.  The rows are handled by rising id.  The loop has reached a
    subscription whose probe gives a count and whose commit works.  When
    its iteration ends, before any row with a larger id is probed, the
    trace ends with the request, the notifier's events (if any) and then
    one commit that flushes this row alone; the table differs from the
    one before the iteration in this row only, which holds the new count;
    no write is left pending; no request for a later row has been sent;
    the loop then goes on with the later rows; and the row still holds
    the count when the run is over, however it ends.  No commit of the
    run flushes more than the row of its iteration.  The events between
    the request and the commit are none when the count did not go up, and
    start with the call of the notifier when it did. *)
Theorem commit_follows_each_decision w st row user c us1 us2 n1 st1 :
  query_all_error w = None →
  all_rows (database st) = us1 ++ (row, user) :: us2 →
  for_users w us1 0 (new_session st) = (Ok n1, st1) →
  (get_available_slots w row (teacher_id user) st).1 = Ok (Some c) →
  commit_error w row = None →
  Forall (λ ru, ru.1 < row) us1
  ∧ Forall (λ ru, row < ru.1) us2
  ∧ ∃ st2 decision,
      for_users w (us1 ++ [(row, user)]) 0 (new_session st) = (Ok n1, st2)
      ∧ trace st2
        = trace st1
          ++ [Sleep row;
              Get row ("https://eikaiwa.dmm.com/teacher/index/" +:+ teacher_id user +:+ "/")]
          ++ decision ++ [Commit row [(row, c)]]
      ∧ Forall (λ e, is_notifier_call row e ∨ is_push_link row e ∨ row_of e = None)
          decision
      ∧ (∀ k, k ≠ row → database st2 !! k = database st1 !! k)
      ∧ database st1 !! row = Some user
      ∧ database st2 !! row
        = Some (mkUserData (teacher_id user) (teacher_name user)
                  (pushbullet_token user) c (user_id user) (last_accessed user))
      ∧ session st2 = ∅
      ∧ Forall (λ ru, filter (is_get ru.1) (new_events st st2) = []) us2
      ∧ for_users w (us1 ++ (row, user) :: us2) 0 (new_session st)
        = for_users w us2 n1 st2
      ∧ database (check_teacher_availability w st).2 !! row
        = Some (mkUserData (teacher_id user) (teacher_name user)
                  (pushbullet_token user) c (user_id user) (last_accessed user))
      ∧ (∀ r fl, Commit r fl ∈ new_events st (check_teacher_availability w st).2 →
                 ∃ c', fl = [(r, c')])
      ∧ (c <= last_available_count user → decision = [])
      ∧ (c > last_available_count user →
         ∃ rest, decision = NewPushbullet row (pushbullet_token user) :: rest).
Proof.
  intros Hq Hl Hrun Hprobe Hcommit. rewrite probe_of_call in Hprobe.
  destruct (all_rows_split _ _ _ _ _ Hl) as [Hbefore Hafter].
  split; [done|]. split; [done|].
  destruct (iteration_commits w st row user c us1 us2 n1 st1 Hl Hrun Hprobe Hcommit)
    as (st2 & Hrun2 & Hgo & Htr & Hdb & Hrow & Hs & _).
  assert (Hp : processed w st row user).
  { split; [done|]. by exists us1, us2, n1, st2. }
  destruct (iteration_counted w row user c Hprobe) as [Hev Hres].
  rewrite Hcommit in Hres.
  assert (Hold : database st1 !! row = Some user).
  { destruct (for_users_ok_state w us1 0 (new_session st) n1 st1 eq_refl Hrun)
      as [-> _]. cbn [database].
    change (database (new_session st)) with (database st).
    pose proof (NoDup_fst_all_rows (database st)) as Hnd.
    rewrite Hl, fmap_app in Hnd. apply NoDup_app in Hnd as (_ & Hdisj & _).
    rewrite loop_db_lookup_notin.
    - apply elem_of_all_rows. rewrite Hl. apply elem_of_app. right. by left.
    - intros Hin. eapply Hdisj; [done|]. by left. }
  exists st2, (decision_events w row user c).
  split; [done|]. split; [done|]. split; [apply decision_events_kind|].
  split; [intros k Hk; by rewrite Hdb, lookup_alter_ne|].
  split; [done|]. split; [done|]. split; [done|]. split.
  { rewrite (new_events_loop _ _ _ _ _ _ Hrun2).
    pose proof (NoDup_fst_all_rows (database st)) as Hnd.
    rewrite Hl in Hnd.
    replace (us1 ++ (row, user) :: us2) with ((us1 ++ [(row, user)]) ++ us2) in Hnd
      by (by rewrite <- app_assoc).
    rewrite fmap_app in Hnd. apply NoDup_app in Hnd as (_ & Hdisj & _).
    apply Forall_forall. intros [r u] Hin. cbn [fst].
    apply (filter_other_loop _ r (is_get_row r)).
    intros Hr. eapply Hdisj; [done|]. exact (list_elem_of_fmap_2 fst _ _ Hin). }
  split; [done|]. split; [by apply processed_db|].
  split; [intros r fl; apply run_commit_one|].
  unfold decision_events. split; intros Hc.
  - by rewrite bool_decide_eq_false_2 by lia.
  - rewrite bool_decide_eq_true_2 by done. unfold notify_events. by eexists.
Qed.

Lemma commit_follows_each_decision_witness :
  (∃ st1, check_body world_crash_late (new_session (start two_rows 0))
          = (Raise (Exception "RecursionError" "maximum recursion depth exceeded"), st1))
  ∧ database (check_teacher_availability world_crash_late (start two_rows 0)).2 !! 1
    = Some (mkUserData "101" (Some "Anna") "token-a" 3 "user_a" 0)
  ∧ database (check_teacher_availability world_crash_late (start two_rows 0)).2 !! 2
    = Some ben.
Proof.
  split; [eexists; vm_compute; reflexivity|].
  split; [|vm_compute; reflexivity].
  destruct (commit_follows_each_decision world_crash_late (start two_rows 0) 1 anna 3
       [] [(2, ben)] 0 (new_session (start two_rows 0)))
    as (_ & _ & st2 & decision & _ & _ & _ & _ & _ & _ & _ & _ & _ & H & _).
  - reflexivity.
  - vm_compute; reflexivity.
  - vm_compute; reflexivity.
  - vm_compute; reflexivity.
  - reflexivity.
  - exact H.
Defined.

(** *** The failure streak *)

Lemma iteration_failed_iff w ru :
  (iteration w ru).2 = Failed ↔ probe w ru.1 (teacher_id ru.2) = Ok None.
Proof.
  unfold iteration. cbn [snd].
  destruct (probe w ru.1 (teacher_id ru.2)) as [[c|]|e]; cbn [snd];
    [destruct (commit_error w ru.1)| |]; split; congruence.
Qed.

(** The loop returns the number of failed probes; it equals the number of
    rows exactly when every probe failed. *)
Lemma loop_result_count w l : ∀ n0 n,
  loop_result w l n0 = Ok n →
  n0 <= n <= n0 + Z.of_nat (length l)
  ∧ (n = n0 + Z.of_nat (length l) ↔ Forall (λ ru, (iteration w ru).2 = Failed) l).
Proof.
  induction l as [|ru l IH]; intros n0 n H; simpl in H.
  - injection H as <-. simpl. split; [lia|]. split; [constructor|lia].
  - rewrite length_cons, Nat2Z.inj_succ.
    destruct (iteration w ru).2 as [|c|e] eqn:E; [| |done].
    + destruct (IH _ _ H) as [Hb Hiff]. split; [lia|]. split.
      * intros Hn. constructor; [done|]. apply Hiff. lia.
      * intros HF. apply Forall_cons in HF as [_ HF]. apply Hiff in HF. lia.
    + destruct (IH _ _ H) as [Hb Hiff]. split; [lia|]. split; [lia|].
      intros HF. apply Forall_cons in HF as [HF _]. congruence.
Qed.

(** A run that gets through all rows: the streak goes up by one when every
    probe failed, and back to zero otherwise. *)
Lemma streak_after_full_run w st n st1 :
  query_all_error w = None →
  for_users w (all_rows (database st)) 0 (new_session st) = (Ok n, st1) →
  let all_failed :=
    ∀ row user, database st !! row = Some user →
      (get_available_slots w row (teacher_id user) st).1 = Ok None in
  (all_failed →
   consecutive_errors (check_teacher_availability w st).2 = consecutive_errors st + 1)
  ∧ (¬ all_failed →
     consecutive_errors (check_teacher_availability w st).2 = 0).
Proof.
  intros Hq Hrun all_failed. subst all_failed.
  destruct (for_users_ok_state w _ 0 (new_session st) n st1 eq_refl Hrun) as [_ Hres].
  rewrite check_teacher_availability_eq. cbn [snd]. unfold run_state, run_streak.
  cbn [consecutive_errors]. rewrite Hq. cbv zeta. rewrite Hres.
  destruct (loop_result_count w _ 0 n Hres) as [_ Hiff]. rewrite Z.add_0_l in Hiff.
  assert (Hall : Forall (λ ru, (iteration w ru).2 = Failed) (all_rows (database st))
                 ↔ ∀ row user, database st !! row = Some user →
                     (get_available_slots w row (teacher_id user) st).1 = Ok None).
  { rewrite Forall_forall. split.
    - intros H row user Hdb. rewrite probe_of_call.
      apply elem_of_all_rows in Hdb. by apply H, iteration_failed_iff in Hdb.
    - intros H [row user] Hin. apply iteration_failed_iff. cbn [fst snd].
      rewrite <- (probe_of_call _ _ _ st). by apply H, elem_of_all_rows. }
  split; intros Hd; case_bool_decide as Hn; try done.
  - exfalso. apply Hn, Hiff, Hall, Hd.
  - exfalso. apply Hd, Hall, Hiff, Hn.
Qed.

(** C2.  On an empty table the comparison [error_count_this_run ==
    len(users)] is [0 == 0]: the run counts as a full failure and the
    streak goes up by one, whatever it was. *)
Theorem empty_table_counts_as_full_failure w st :
  query_all_error w = None →
  database st = ∅ →
  consecutive_errors (check_teacher_availability w st).2 = consecutive_errors st + 1.
Proof.
  intros Hq Hdb.
  rewrite check_teacher_availability_eq. cbn [snd]. unfold run_state, run_streak.
  cbn [consecutive_errors]. by rewrite Hq, Hdb, all_rows_empty.
Qed.

Lemma empty_table_counts_as_full_failure_witness :
  consecutive_errors (check_teacher_availability world_open (start ∅ 3)).2 = 4.
Proof.
  exact (empty_table_counts_as_full_failure world_open (start ∅ 3) eq_refl eq_refl).
Defined.

(** *** The scheduler *)

Lemma scheduler_cons w ws st :
  scheduler (w :: ws) st = scheduler ws (check_teacher_availability w st).2.
Proof.
  cbn [scheduler]. unfold mbind, M_bind.
  by rewrite check_teacher_availability_eq.
Qed.

Lemma scheduler_ok ws : ∀ st, (scheduler ws st).1 = Ok tt.
Proof.
  induction ws as [|w ws IH]; intros st; [done|]. by rewrite scheduler_cons.
Qed.

Lemma filter_prints (l : list event) :
  Forall (λ e, row_of e = None) l → filter is_external l = [].
Proof.
  induction 1 as [|e l He _ IH]; [done|].
  rewrite filter_cons_False; [done|]. unfold is_external. rewrite He.
  intros Hf. exact Hf.
Qed.

Lemma run_trace_external w st :
  filter is_external (run_trace w st)
  = match query_all_error w with
    | Some _ => []
    | None => filter is_external (loop_events w (all_rows (database st)))
    end.
Proof.
  unfold run_trace. destruct (query_all_error w).
  - apply filter_prints. by repeat constructor.
  - by rewrite filter_app, (filter_prints _ (final_lines_rows w st)), app_nil_r.
Qed.

(** The rows and the external calls of a run do not depend on the streak. *)
Lemma run_same_but_streak w st1 st2 :
  database st1 = database st2 →
  filter is_external (trace st1) = filter is_external (trace st2) →
  database (check_teacher_availability w st1).2
  = database (check_teacher_availability w st2).2
  ∧ filter is_external (trace (check_teacher_availability w st1).2)
    = filter is_external (trace (check_teacher_availability w st2).2).
Proof.
  intros Hdb Htr. rewrite !check_teacher_availability_eq. cbn [snd].
  unfold run_state. cbn [database trace]. split.
  - unfold run_db. by rewrite Hdb.
  - rewrite !filter_app, !run_trace_external, Htr, Hdb. done.
Qed.

Lemma scheduler_same_but_streak ws : ∀ st1 st2,
  database st1 = database st2 →
  filter is_external (trace st1) = filter is_external (trace st2) →
  database (scheduler ws st1).2 = database (scheduler ws st2).2
  ∧ filter is_external (trace (scheduler ws st1).2)
    = filter is_external (trace (scheduler ws st2).2).
Proof.
  induction ws as [|w ws IH]; intros st1 st2 Hdb Htr; [done|].
  rewrite !scheduler_cons.
  destruct (run_same_but_streak w st1 st2 Hdb Htr). by apply IH.
Qed.

Lemma loop_events_get w l :
  no_abort w l →
  ∀ row user, (row, user) ∈ l →
    Get row (teacher_page (teacher_id user)) ∈ loop_events w l.
Proof.
  induction 1 as [|[r u] l Hru _ IH]; intros row user Hin.
  { by apply elem_of_nil in Hin. }
  simpl. apply elem_of_app. apply elem_of_cons in Hin as [Heq|Hin].
  - injection Heq as -> ->. left. unfold iteration. cbn [fst snd].
    destruct (probe w r (teacher_id u)) as [[c|]|e]; cbn [fst]; right; by left.
  - right. destruct (iteration w (r, u)).2 as [| |e] eqn:E;
      [by apply IH|by apply IH|by destruct (Hru e)].
Qed.

Lemma loop_db_all_failed w l d :
  Forall (λ ru, (iteration w ru).2 = Failed) l → loop_db w l d = d.
Proof.
  induction 1 as [|ru l Hru _ IH]; [done|]. simpl. by rewrite Hru.
Qed.

(** C6.  A run that takes the streak to the threshold or beyond: it
    returns normally, every row of the table was probed, the table is as
    before (all probes failed, so there was nothing to store), no write is
    left pending, and the last line printed announces the skip.  The
    announcement has no effect: whatever runs the scheduler starts next,
    they return normally, and their rows and external calls are those
    they would be with any other value [s] of the streak. *)
Theorem threshold_does_not_stop_polling w ws st s :
  let st' := (check_teacher_availability w st).2 in
  consecutive_errors st' = consecutive_errors st + 1 →
  consecutive_errors st' >= MAX_ERRORS →
  (check_teacher_availability w st).1 = Ok tt
  ∧ (∀ row user, database st !! row = Some user →
       Get row (teacher_page (teacher_id user)) ∈ new_events st st')
  ∧ database st' = database st
  ∧ session st' = ∅
  ∧ last (trace st') = Some (Print skip_line)
  ∧ (scheduler ws st').1 = Ok tt
  ∧ database (scheduler ws st').2
    = database (scheduler ws (set_consecutive_errors s st')).2
  ∧ filter is_external (trace (scheduler ws st').2)
    = filter is_external (trace (scheduler ws (set_consecutive_errors s st')).2).
Proof.
  intros st'. subst st'. rewrite check_teacher_availability_eq. cbn [fst snd].
  intros Hinc Hmax.
  split; [done|].
  assert (Hbranch : query_all_error w = None
    ∧ ∃ n, loop_result w (all_rows (database st)) 0 = Ok n
           ∧ n = Z.of_nat (length (all_rows (database st)))).
  { unfold run_state, run_streak in Hinc, Hmax. cbn [consecutive_errors] in Hinc, Hmax.
    unfold MAX_ERRORS in Hmax.
    destruct (query_all_error w); [lia|]. split; [done|].
    cbv zeta in Hinc, Hmax.
    destruct (loop_result w (all_rows (database st)) 0) as [n|e]; [|lia].
    exists n. split; [done|]. case_bool_decide; [done|lia]. }
  destruct Hbranch as (Hq & n & Hres & Hn).
  pose proof (loop_result_no_abort _ _ _ _ Hres) as Hna.
  destruct (loop_result_count w _ 0 n Hres) as [_ Hiff].
  assert (Hall : Forall (λ ru, (iteration w ru).2 = Failed) (all_rows (database st)))
    by (apply Hiff; lia).
  split; [|split; [|split; [|split; [|split]]]].
  - intros row user Hdb. unfold new_events, run_state. cbn [trace].
    rewrite drop_app_length. unfold run_trace. rewrite Hq.
    apply elem_of_app. left. apply loop_events_get; [done|].
    by apply elem_of_all_rows.
  - unfold run_state, run_db. cbn [database]. rewrite Hq.
    by apply loop_db_all_failed.
  - done.
  - unfold run_state, run_trace, final_lines. cbn [trace]. rewrite Hq, Hres.
    rewrite bool_decide_eq_true_2 by done. cbv zeta.
    unfold run_state, run_streak in Hmax. cbn [consecutive_errors] in Hmax.
    rewrite Hq in Hmax. cbv zeta in Hmax. rewrite Hres in Hmax.
    rewrite bool_decide_eq_true_2 in Hmax by done.
    rewrite bool_decide_eq_true_2 by done.
    by rewrite !last_app.
  - apply scheduler_ok.
  - by apply scheduler_same_but_streak.
Qed.

Lemma threshold_does_not_stop_polling_witness :
  consecutive_errors (check_teacher_availability world_down (start two_rows 4)).2 = 5
  ∧ database
      (scheduler [world_open]
         (check_teacher_availability world_down (start two_rows 4)).2).2 !! 1
    = Some (with_last_available_count 3 anna).
Proof.
  split; [vm_compute; reflexivity|].
  destruct (threshold_does_not_stop_polling world_down [world_open] (start two_rows 4) 0)
    as (_ & _ & _ & _ & _ & _ & Hdb & _).
  - vm_compute; reflexivity.
  - vm_compute; congruence.
  - rewrite Hdb. vm_compute; reflexivity.
Defined.

(** C7.  The run returns normally in every world and from every state.
    When the body of the try block raises, the state is the one the body
    left, with the message of the exception printed and the session
    gone; otherwise it is the one the body left, the session gone.  The
    scheduler goes on with the next runs from that state, and they
    return normally as well. *)
Theorem run_never_raises w ws st :
  (check_teacher_availability w st).1 = Ok tt
  ∧ session (check_teacher_availability w st).2 = ∅
  ∧ match check_body w (new_session st) with
    | (Raise e, st1) =>
        (check_teacher_availability w st).2
        = new_session (add_events [Print (run_failed_line e)] st1)
    | (Ok _, st1) => (check_teacher_availability w st).2 = new_session st1
    end
  ∧ scheduler (w :: ws) st = scheduler ws (check_teacher_availability w st).2
  ∧ (scheduler (w :: ws) st).1 = Ok tt.
Proof.
  split; [|split; [|split; [|split]]].
  - unfold check_teacher_availability, with_app_context, try_except.
    destruct (check_body w (new_session st)) as [[[]|e] st1]; reflexivity.
  - unfold check_teacher_availability, with_app_context, try_except.
    destruct (check_body w (new_session st)) as [[[]|e] st1]; reflexivity.
  - unfold check_teacher_availability, with_app_context, try_except.
    destruct (check_body w (new_session st)) as [[[]|e] st1]; reflexivity.
  - apply scheduler_cons.
  - apply scheduler_ok.
Qed.

(** The body of the try block does raise in some worlds. *)
Example check_body_can_raise :
  (check_body world_crash (new_session (start two_rows 0))).1
  = Raise (Exception "RecursionError" "maximum recursion depth exceeded")
  ∧ (check_teacher_availability world_crash (start two_rows 0)).1 = Ok tt.
Proof. split; vm_compute; reflexivity. Qed.

(** C8.  The scraper sends one request and changes nothing else.  On a
    response with status 200 that did not end on the landing page it
    returns a count, which is the number of matching strings and so not
    negative; on any other response, and on a RequestException, it
    returns the failure marker [None], never a count; any other exception
    of the request leaves the function. *)
Theorem get_available_slots_count_or_marker w row tid st :
  let r := (get_available_slots w row tid st).1 in
  (get_available_slots w row tid st).2 = add_events [Get row (teacher_page tid)] st
  ∧ match requests_get w row (teacher_page tid) with
    | Ok resp =>
        if decide (status_code resp = 200 ∧ url resp ≠ LANDING_PAGE)
        then ∃ c, r = Ok (Some c) ∧ 0 <= c
                  ∧ c = Z.of_nat (length (find_all_string "予約可" (content resp)))
        else r = Ok None
    | Raise (RequestException _) => r = Ok None
    | Raise (Exception cls msg) => r = Raise (Exception cls msg)
    end
  ∧ match r with Ok (Some c) => 0 <= c | _ => True end.
Proof.
  intros r. subst r. rewrite get_available_slots_eq. cbn [fst snd].
  split; [done|]. unfold probe.
  destruct (requests_get w row (teacher_page tid)) as [resp|[m|cls m]]; cbn.
  - case_decide as Hok.
    + destruct Hok as [H200 Hurl].
      rewrite (bool_decide_eq_false_2 (status_code resp ≠ 200)) by (intros H; by apply H).
      rewrite (bool_decide_eq_false_2 (url resp = LANDING_PAGE)) by done. cbn.
      split; [|lia]. eexists. split; [done|]. split; [lia|done].
    + destruct (decide (status_code resp = 200)) as [H200|H200].
      * destruct (decide (url resp = LANDING_PAGE)) as [Hurl|Hurl].
        -- rewrite (bool_decide_eq_true_2 (url resp = LANDING_PAGE)) by done.
           rewrite orb_true_r. done.
        -- exfalso. by apply Hok.
      * rewrite (bool_decide_eq_true_2 (status_code resp ≠ 200)) by done. done.
  - done.
  - done.
Qed.

(** A page without open slots gives the count zero; a 404, a redirect to
    the landing page and a RequestException give the marker. *)
Example zero_slots_is_a_count :
  (get_available_slots (mkWorld None (site (λ _, Some 0%nat)) (λ _ _, None)
                          (λ _ _ _, None) (λ _, None)) 1 "101" (start ∅ 0)).1
  = Ok (Some 0).
Proof. vm_compute; reflexivity. Qed.

Example not_found_is_the_marker :
  (get_available_slots world_down 1 "101" (start ∅ 0)).1 = Ok None.
Proof. vm_compute; reflexivity. Qed.

Example landing_page_is_the_marker :
  (get_available_slots
     (mkWorld None (λ _ _, Ok (mkResponse 200 LANDING_PAGE (page "" 4)))
        (λ _ _, None) (λ _ _ _, None) (λ _, None)) 1 "101" (start ∅ 0)).1
  = Ok None.
Proof. vm_compute; reflexivity. Qed.

Example request_exception_is_the_marker :
  (get_available_slots
     (mkWorld None (λ _ _, Raise (RequestException "timed out"))
        (λ _ _, None) (λ _ _ _, None) (λ _, None)) 1 "101" (start ∅ 0)).1
  = Ok None.
Proof. vm_compute; reflexivity. Qed.

(** *** Rows per owner *)

Lemma owner_count_owners uid (d : gmap Z UserData) :
  owner_count uid d
  = Z.of_nat (size (filter (λ kv : Z * string, kv.2 = uid) (user_id <$> d))).
Proof.
  unfold owner_count. by rewrite map_filter_fmap, map_size_fmap.
Qed.

Lemma owner_count_same_owners uid (d1 d2 : gmap Z UserData) :
  user_id <$> d1 = user_id <$> d2 → owner_count uid d1 = owner_count uid d2.
Proof. intros H. by rewrite !owner_count_owners, H. Qed.

Lemma owner_count_subseteq uid (d1 d2 : gmap Z UserData) :
  d1 ⊆ d2 → owner_count uid d1 <= owner_count uid d2.
Proof.
  intros H. unfold owner_count. apply inj_le, map_subseteq_size.
  by apply map_filter_subseteq_mono.
Qed.

Lemma owner_count_insert uid k x (d : gmap Z UserData) :
  owner_count uid (<[k := x]> d) <= owner_count uid d + 1.
Proof.
  unfold owner_count. rewrite map_filter_insert. case_decide.
  - rewrite map_size_insert. destruct (filter _ d !! k); simpl; lia.
  - rewrite map_filter_delete, map_size_delete. destruct (filter _ d !! k); simpl; lia.
Qed.

Lemma owner_count_insert_other uid k x (d : gmap Z UserData) :
  user_id x ≠ uid → owner_count uid (<[k := x]> d) <= owner_count uid d.
Proof.
  intros Hne. unfold owner_count. rewrite map_filter_insert_False by done.
  rewrite map_filter_delete, map_size_delete. destruct (filter _ d !! k); simpl; lia.
Qed.

Lemma owner_count_nonneg uid d : 0 <= owner_count uid d.
Proof. unfold owner_count. lia. Qed.

Lemma touch_owners uid t (d : gmap Z UserData) : user_id <$> touch uid t d = user_id <$> d.
Proof.
  unfold touch. rewrite <- map_fmap_compose. apply map_fmap_ext.
  intros i u _. simpl. by case_bool_decide.
Qed.

Lemma owner_count_touch uid uid' t d :
  owner_count uid (touch uid' t d) = owner_count uid d.
Proof. apply owner_count_same_owners, touch_owners. Qed.

Lemma first_row_owner uid (d : gmap Z UserData) :
  owner_count uid d ≠ 0 → is_Some (first_row (λ u, user_id u = uid) d).
Proof.
  intros Hne. unfold first_row.
  destruct (filter _ (all_rows d)) as [|kv l] eqn:E; [|by eexists].
  exfalso. apply Hne. unfold owner_count.
  assert (filter (λ kv : Z * UserData, user_id kv.2 = uid) d = ∅) as ->; [|done].
  apply map_empty. intros k. apply map_lookup_filter_None. right. intros u Hk Hu.
  assert (Hin : (k, u) ∈ filter (λ kv : Z * UserData, user_id kv.2 = uid) (all_rows d)).
  { apply list_elem_of_filter. split; [done|]. by apply elem_of_all_rows. }
  rewrite E in Hin. by apply elem_of_nil in Hin.
Qed.

Lemma next_id_fresh (d : gmap Z UserData) : d !! next_id d = None.
Proof.
  apply not_elem_of_dom. intros Hin. apply elem_of_dom in Hin as [u Hu].
  apply elem_of_map_to_list in Hu.
  assert (Hmax : ∀ l : list (Z * UserData), ∀ k u, (k, u) ∈ l → k <= foldr Z.max 0 l.*1).
  { induction l as [|[k' u'] l IH]; intros k v Hin; [by apply elem_of_nil in Hin|].
    rewrite fmap_cons. cbn [foldr fst].
    apply elem_of_cons in Hin as [Heq|Hin]; [injection Heq as -> ->; lia|].
    specialize (IH _ _ Hin). lia. }
  apply Hmax in Hu. unfold next_id in Hu. lia.
Qed.

Lemma run_db_owners w st :
  user_id <$> database (check_teacher_availability w st).2 = user_id <$> database st.
Proof.
  rewrite check_teacher_availability_eq. cbn [snd]. unfold run_state, run_db.
  cbn [database]. destruct (query_all_error w); [done|].
  apply map_eq. intros k. rewrite !lookup_fmap.
  destruct (loop_db_lookup_shape w k (all_rows (database st)) (database st))
    as [->|(c & u & -> & ->)]; done.
Qed.

(** What [index] can do to the table. *)
Lemma index_table str_isdigit str_strip req d :
  let d' := (index str_isdigit str_strip req d).1 in
  user_id <$> d' = user_id <$> d
  ∨ ∃ uid d1 x,
      user_id <$> d1 = user_id <$> d ∧ owner_count uid d1 < 10
      ∧ user_id x = uid ∧ d' = <[next_id d1 := x]> d1.
Proof.
  unfold index. destruct (session_user_id req) as [uid|]; [|by left].
  case_bool_decide; [by left|].
  set (d1 := match first_row _ d with Some _ => touch uid (now req) d | None => d end).
  assert (Hd1 : user_id <$> d1 = user_id <$> d).
  { unfold d1. destruct (first_row _ d); [apply touch_owners|done]. }
  cbv zeta. destruct (req_method req); [by left|].
  case_bool_decide as Hcap; [by left|].
  destruct (form req "teacher_id") as [tid|]; [|by left].
  destruct (negb (str_isdigit tid)); [by left|].
  destruct (negb (truthy (Some tid)) || negb (truthy (form req "pushbullet_token")));
    [by left|].
  destruct (first_row _ d1); [by left|].
  destruct (get_teacher_name str_strip (page_of req) tid) as [name|e]; [|by left].
  destruct (negb (truthy name)); [by left|].
  right. eexists uid, d1, _. cbn [fst]. split; [done|]. split; [lia|].
  split; [|reflexivity]. reflexivity.
Qed.

Lemma index_bound str_isdigit str_strip req d uid :
  owner_count uid (index str_isdigit str_strip req d).1
  <= Z.max 10 (owner_count uid d).
Proof.
  destruct (index_table str_isdigit str_strip req d)
    as [Hsame|(uid' & d1 & x & Hd1 & Hlt & Hx & ->)].
  - rewrite (owner_count_same_owners _ _ _ Hsame). lia.
  - destruct (decide (uid = uid')) as [->|Hne].
    + pose proof (owner_count_insert uid' (next_id d1) x d1). lia.
    + pose proof (owner_count_insert_other uid (next_id d1) x d1) as Hle.
      rewrite <- (owner_count_same_owners uid _ _ Hd1).
      assert (owner_count uid (<[next_id d1:=x]> d1) <= owner_count uid d1);
        [apply Hle; congruence|lia].
Qed.

Lemma delete_teacher_bound req d uid :
  owner_count uid (delete_teacher req d).1 <= owner_count uid d.
Proof.
  unfold delete_teacher. destruct (req_method req); [done|]. cbv zeta.
  match goal with |- context [match ?x with Some _ => _ | None => _ end] =>
    destruct x as [[row u]|] end; [|done].
  cbn [fst]. apply owner_count_subseteq, delete_subseteq.
Qed.

Lemma reset_user_bound req d uid :
  owner_count uid (reset_user req d).1 <= owner_count uid d.
Proof.
  unfold reset_user. destruct (req_method req); [cbn; lia|].
  cbn [fst]. destruct (truthy (session_user_id req)); [|done].
  apply owner_count_subseteq, map_filter_subseteq.
Qed.

Lemma apply_operation_bound str_isdigit str_strip op st uid :
  owner_count uid (database (apply_operation str_isdigit str_strip op st))
  <= Z.max 10 (owner_count uid (database st)).
Proof.
  destruct op as [req|req|req|w]; cbn [apply_operation database set_database].
  - apply index_bound.
  - pose proof (delete_teacher_bound req (database st) uid). lia.
  - pose proof (reset_user_bound req (database st) uid). lia.
  - rewrite (owner_count_same_owners _ _ _ (run_db_owners w st)). lia.
Qed.

Lemma apply_operations_bound str_isdigit str_strip ops : ∀ st uid,
  owner_count uid (database (apply_operations str_isdigit str_strip ops st))
  <= Z.max 10 (owner_count uid (database st)).
Proof.
  induction ops as [|op ops IH]; intros st uid; [simpl; lia|].
  cbn [apply_operations foldl]. etrans; [apply IH|].
  pose proof (apply_operation_bound str_isdigit str_strip op st uid). lia.
Qed.

(** C10.  A POST to [index] by an owner who has ten rows or more is turned
    away with the message about the limit, and leaves the table as it was
    but for [last_accessed] of that owner's rows.  As [index] is the only
    handler that adds rows, and adds one at a time, no sequence of
    requests and runs of the job takes an owner's number of rows above
    ten: it stays below the larger of ten and what it was. *)
Theorem registration_is_capped str_isdigit str_strip req d uid :
  req_method req = POST →
  session_user_id req = Some uid →
  uid ≠ "" →
  owner_count uid d >= 10 →
  (index str_isdigit str_strip req d).2
    = Redirect "/" (Some ("このアカウントでは最大10件までしか登録できません！", "danger"))
  ∧ (index str_isdigit str_strip req d).1 = touch uid (now req) d
  ∧ owner_count uid (index str_isdigit str_strip req d).1 = owner_count uid d
  ∧ ∀ ops st uid',
      owner_count uid' (database (apply_operations str_isdigit str_strip ops st))
      <= Z.max 10 (owner_count uid' (database st)).
Proof.
  intros Hm Hs Hne Hcap.
  assert (Hidx : index str_isdigit str_strip req d
    = (touch uid (now req) d,
       Redirect "/" (Some ("このアカウントでは最大10件までしか登録できません！", "danger")))).
  { unfold index. rewrite Hs, Hm. rewrite bool_decide_eq_false_2 by done.
    destruct (first_row_owner uid d) as [kv ->]; [lia|]. cbv zeta.
    rewrite owner_count_touch. by rewrite bool_decide_eq_true_2. }
  rewrite Hidx. cbn [fst snd]. split; [done|]. split; [done|].
  split; [apply owner_count_touch|]. intros ops st uid'.
  apply apply_operations_bound.
Qed.

Lemma registration_is_capped_witness :
  owner_count "user_a" (ten_rows "user_a") = 10
  ∧ (index ascii_isdigit ascii_strip (create_request "user_a" "21") (ten_rows "user_a")).2
    = Redirect "/" (Some ("このアカウントでは最大10件までしか登録できません！", "danger")).
Proof.
  split; [vm_compute; reflexivity|].
  refine (proj1 (registration_is_capped ascii_isdigit ascii_strip
                   (create_request "user_a" "21") (ten_rows "user_a") "user_a" _ _ _ _)).
  - reflexivity.
  - reflexivity.
  - discriminate.
  - vm_compute; congruence.
Defined.

(** Below the limit the same request adds a row. *)
Example registration_below_the_cap :
  owner_count "user_a" two_rows = 1
  ∧ owner_count "user_a"
      (index ascii_isdigit ascii_strip (create_request "user_a" "21") two_rows).1 = 2
  ∧ (index ascii_isdigit ascii_strip (create_request "user_a" "21") two_rows).1 !! 3
    = Some (mkUserData "21" (Some "Clara") "token" 0 "user_a" 101).
Proof. repeat split; vm_compute; reflexivity. Qed.

(** ** More on the routes *)

Lemma first_row_Some (P : UserData → Prop) `{!∀ u, Decision (P u)} d k u :
  first_row P d = Some (k, u) → d !! k = Some u ∧ P u.
Proof.
  unfold first_row. intros Hf. apply head_Some_elem_of in Hf.
  apply list_elem_of_filter in Hf as [HP Hin]. split; [|done].
  by apply elem_of_all_rows.
Qed.

Lemma first_row_None (P : UserData → Prop) `{!∀ u, Decision (P u)} d :
  first_row P d = None → ∀ k u, d !! k = Some u → ¬ P u.
Proof.
  unfold first_row. intros Hf k u Hk HP. apply head_None in Hf.
  assert (Hin : (k, u) ∈ filter (λ kv : Z * UserData, P kv.2) (all_rows d)).
  { apply list_elem_of_filter. split; [done|]. by apply elem_of_all_rows. }
  rewrite Hf in Hin. by apply elem_of_nil in Hin.
Qed.

Lemma first_row_is_Some (P : UserData → Prop) `{!∀ u, Decision (P u)} d k u :
  d !! k = Some u → P u → is_Some (first_row P d).
Proof.
  intros Hk HP. destruct (first_row P d) as [kv|] eqn:E; [by eexists|].
  by destruct (first_row_None P d E k u Hk).
Qed.

Lemma owner_count_zero uid d :
  owner_count uid d = 0 ↔ ∀ k u, d !! k = Some u → user_id u ≠ uid.
Proof.
  unfold owner_count. split.
  - intros H k u Hk Hu.
    assert (Hs : size (filter (λ kv : Z * UserData, user_id kv.2 = uid) d) = 0%nat) by lia.
    apply map_size_empty_inv in Hs.
    assert (Hl : filter (λ kv : Z * UserData, user_id kv.2 = uid) d !! k = Some u)
      by (by apply map_lookup_filter_Some).
    rewrite Hs in Hl. by rewrite lookup_empty in Hl.
  - intros H.
    assert (filter (λ kv : Z * UserData, user_id kv.2 = uid) d = ∅) as ->;
      [|by rewrite map_size_empty].
    apply map_empty. intros k. apply map_lookup_filter_None. right.
    intros u Hk Hu. by apply (H k u).
Qed.

Lemma first_row_owner_None uid d :
  first_row (λ u, user_id u = uid) d = None ↔ owner_count uid d = 0.
Proof.
  split.
  - intros H. apply owner_count_zero. intros k u Hk. by apply (first_row_None _ d H k u).
  - intros H. destruct (first_row _ d) as [[k u]|] eqn:E; [|done].
    apply first_row_Some in E as [Hk Hu].
    by destruct (proj1 (owner_count_zero uid d) H k u Hk).
Qed.

Lemma lookup_touch uid t d k :
  touch uid t d !! k
  = (λ u, if bool_decide (user_id u = uid) then with_last_accessed t u else u)
      <$> d !! k.
Proof. unfold touch. by rewrite lookup_fmap. Qed.

Lemma touch_no_rows uid t d : owner_count uid d = 0 → touch uid t d = d.
Proof.
  intros H. apply map_eq. intros k. rewrite lookup_touch.
  destruct (d !! k) as [u|] eqn:Hk; [|done]. simpl.
  rewrite bool_decide_eq_false_2; [done|].
  by apply (proj1 (owner_count_zero uid d) H k u).
Qed.

(** The table [index] works on once the owner's rows are stamped. *)
Lemma index_stamped uid t d :
  match first_row (λ u, user_id u = uid) d with
  | Some _ => touch uid t d
  | None => d
  end = touch uid t d.
Proof.
  destruct (first_row _ d) eqn:E; [done|].
  apply first_row_owner_None in E. by rewrite touch_no_rows.
Qed.

(** A name comes from the first h1 of a page that was fetched and is not
    the landing page. *)
Lemma get_teacher_name_Some str_strip get tid name :
  get_teacher_name str_strip get tid = Ok (Some name) →
  ∃ response tag,
    get ("https://eikaiwa.dmm.com/teacher/index/" +:+ tid +:+ "/") = Ok response
    ∧ url response ≠ "https://eikaiwa.dmm.com/"
    ∧ find "h1" (content response) = Some tag
    ∧ name = str_strip (text tag).
Proof.
  unfold get_teacher_name, teacher_page, LANDING_PAGE. cbv zeta.
  destruct (get _) as [response|e]; [|by destruct (is_RequestException e)].
  case_bool_decide as Hurl; [done|].
  destruct (find "h1" (content response)) as [tag|] eqn:Hfind; [|done].
  intros [= <-]. by exists response, tag.
Qed.

(** The key of a new row is above every key in use. *)
Lemma next_id_above (d : gmap Z UserData) k u : d !! k = Some u → k < next_id d.
Proof.
  intros Hu. apply elem_of_map_to_list in Hu.
  assert (Hmax : ∀ l : list (Z * UserData), ∀ k u, (k, u) ∈ l → k <= foldr Z.max 0 l.*1).
  { induction l as [|[k' u'] l IH]; intros j v Hin; [by apply elem_of_nil in Hin|].
    rewrite fmap_cons. cbn [foldr fst].
    apply elem_of_cons in Hin as [Heq|Hin]; [injection Heq as -> ->; lia|].
    specialize (IH _ _ Hin). lia. }
  apply Hmax in Hu. unfold next_id. lia.
Qed.

(** What a reply of category "success" from [index] tells. *)
Lemma index_success_inv str_isdigit str_strip req d loc msg :
  (index str_isdigit str_strip req d).2 = Redirect loc (Some (msg, "success")) →
  ∃ uid tid token name,
    session_user_id req = Some uid ∧ uid ≠ ""
    ∧ req_method req = POST
    ∧ form req "teacher_id" = Some tid ∧ str_isdigit tid = true ∧ tid ≠ ""
    ∧ form req "pushbullet_token" = Some token ∧ token ≠ ""
    ∧ owner_count uid d < 10
    ∧ (∀ k u, touch uid (now req) d !! k = Some u →
              ¬ (teacher_id u = tid ∧ user_id u = uid))
    ∧ get_teacher_name str_strip (page_of req) tid = Ok (Some name) ∧ name ≠ ""
    ∧ index str_isdigit str_strip req d
      = (<[next_id (touch uid (now req) d)
           := mkUserData tid (Some name) token 0 uid (now_at_insert req)]>
           (touch uid (now req) d),
         Redirect "/" (Some (name +:+ " (講師番号: " +:+ tid +:+ ") を登録しました！",
                             "success"))).
Proof.
  unfold index. destruct (session_user_id req) as [uid|]; [|done].
  case_bool_decide as Huid; [done|]. rewrite index_stamped. cbv zeta.
  destruct (req_method req); [done|].
  rewrite owner_count_touch. case_bool_decide as Hcap; [done|].
  destruct (form req "teacher_id") as [tid|]; [|done].
  destruct (str_isdigit tid) eqn:Hdig; [|done]. cbn [negb].
  destruct (form req "pushbullet_token") as [token|] eqn:Htok;
    [|by rewrite orb_true_r].
  unfold truthy at 1 2.
  case_bool_decide as Htid; [|done]. case_bool_decide as Htoken; [|done].
  cbn [negb orb].
  destruct (first_row _ (touch uid (now req) d)) eqn:Hfirst; [done|].
  destruct (get_teacher_name str_strip (page_of req) tid) as [[name|]|e] eqn:Hname;
    [|done|done].
  unfold truthy. case_bool_decide as Hn; [|done]. cbn [negb snd].
  intros _. exists uid, tid, token, name.
  repeat split; try done; try lia.
  - intros k u Hk. by apply (first_row_None _ _ Hfirst k u).
  - by rewrite !bool_decide_eq_true_2 by done.
Qed.

(** X1.  A reply of category "success" from [index] means one row was
    added, under a key above every key in use.  The row carries the
    teacher id and the token of the form, the owner of the session, the
    count 0, the time read when the row is inserted, and as name the
    stripped text of the first h1 of the teacher's page, which was
    fetched and is not the landing page; the reply redirects to "/" and
    flashes that name.  The owner has one row more than before and at
    most ten; every row that was there is still there, the owner's rows
    stamped with the time of the request. *)
Theorem index_success_adds_one_row str_isdigit str_strip req d loc msg :
  (index str_isdigit str_strip req d).2 = Redirect loc (Some (msg, "success")) →
  let d' := (index str_isdigit str_strip req d).1 in
  ∃ uid tid token response teacher_name_tag key,
    session_user_id req = Some uid
    ∧ form req "teacher_id" = Some tid
    ∧ form req "pushbullet_token" = Some token
    ∧ page_of req ("https://eikaiwa.dmm.com/teacher/index/" +:+ tid +:+ "/")
      = Ok response
    ∧ url response ≠ "https://eikaiwa.dmm.com/"
    ∧ find "h1" (content response) = Some teacher_name_tag
    ∧ loc = "/"
    ∧ msg = str_strip (text teacher_name_tag)
            +:+ " (講師番号: " +:+ tid +:+ ") を登録しました！"
    ∧ d !! key = None
    ∧ (∀ k u, d !! k = Some u → k < key)
    ∧ d' !! key
      = Some (mkUserData tid (Some (str_strip (text teacher_name_tag))) token 0 uid
                         (now_at_insert req))
    ∧ (∀ k, k ≠ key →
            d' !! k
            = match d !! k with
              | Some u =>
                  Some (if bool_decide (user_id u = uid)
                        then mkUserData (teacher_id u) (teacher_name u)
                               (pushbullet_token u) (last_available_count u)
                               (user_id u) (now req)
                        else u)
              | None => None
              end)
    ∧ owner_count uid d' = owner_count uid d + 1
    ∧ owner_count uid d' <= 10
    ∧ size d' = S (size d).
Proof.
  intros Hok d'. subst d'.
  destruct (index_success_inv _ _ _ _ _ _ Hok)
    as (uid & tid & token & name & Hs & _ & _ & Htid & _ & _ & Htok & _ & Hcap & _
        & Hname & _ & Heq).
  rewrite Heq in Hok. cbn [snd] in Hok. injection Hok as <- <-.
  rewrite Heq. cbn [fst]. clear Heq.
  destruct (get_teacher_name_Some _ _ _ _ Hname)
    as (response & tag & Hget & Hurl & Hfind & ->).
  pose proof (next_id_fresh (touch uid (now req) d)) as Hfresh.
  pose proof Hfresh as Hfresh0. rewrite lookup_touch in Hfresh0.
  apply fmap_None in Hfresh0.
  set (d1 := touch uid (now req) d) in *.
  exists uid, tid, token, response, tag, (next_id d1).
  split; [done|]. split; [done|]. split; [done|]. split; [done|].
  split; [done|]. split; [done|]. split; [done|]. split; [done|].
  split; [done|].
  split.
  { intros k u Hk. apply (next_id_above d1 k
      (if bool_decide (user_id u = uid) then with_last_accessed (now req) u else u)).
    unfold d1. by rewrite lookup_touch, Hk. }
  split; [by rewrite lookup_insert_eq|].
  split.
  { intros k Hk. rewrite lookup_insert_ne by done. unfold d1.
    rewrite lookup_touch. by destruct (d !! k). }
  assert (Hcount : owner_count uid
                     (<[next_id d1 := mkUserData tid (Some (str_strip (text tag))) token 0
                                        uid (now_at_insert req)]> d1)
                   = owner_count uid d + 1).
  { rewrite <- (owner_count_touch uid uid (now req) d). fold d1.
    unfold owner_count. rewrite map_filter_insert_True by done.
    rewrite map_size_insert_None; [lia|].
    apply map_lookup_filter_None. by left. }
  split; [done|]. split; [lia|].
  rewrite map_size_insert_None by done. unfold d1, touch. by rewrite map_size_fmap.
Qed.

Lemma index_success_adds_one_row_witness :
  let d' := (index ascii_isdigit ascii_strip (create_request "user_a" "21") two_rows).1 in
  (d' !! 3 = Some (mkUserData "21" (Some "Clara") "token" 0 "user_a" 101)
   ∧ d' !! 1 = Some (mkUserData "101" (Some "Anna") "token-a" 0 "user_a" 100)
   ∧ d' !! 2 = Some ben)
  ∧ ∃ uid tid token response teacher_name_tag key,
      session_user_id (create_request "user_a" "21") = Some uid
      ∧ form (create_request "user_a" "21") "teacher_id" = Some tid
      ∧ form (create_request "user_a" "21") "pushbullet_token" = Some token
      ∧ page_of (create_request "user_a" "21")
          ("https://eikaiwa.dmm.com/teacher/index/" +:+ tid +:+ "/") = Ok response
      ∧ find "h1" (content response) = Some teacher_name_tag
      ∧ two_rows !! key = None
      ∧ d' !! key
        = Some (mkUserData tid (Some (ascii_strip (text teacher_name_tag))) token 0 uid
                           101).
Proof.
  intros d'. split; [by vm_compute|].
  destruct (index_success_adds_one_row ascii_isdigit ascii_strip
              (create_request "user_a" "21") two_rows "/"
              "Clara (講師番号: 21) を登録しました！")
    as (uid & tid & token & response & tag & key
        & H1 & H2 & H3 & H4 & _ & H6 & _ & _ & H9 & _ & H11 & _).
  - vm_compute; reflexivity.
  - exists uid, tid, token, response, tag, key. repeat split; assumption.
Defined.

(** What [index] leaves in the table, case by case. *)
Lemma index_cases str_isdigit str_strip req d :
  match session_user_id req with
  | None => (index str_isdigit str_strip req d).1 = d
  | Some uid =>
      if bool_decide (uid = "") then (index str_isdigit str_strip req d).1 = d
      else
        (index str_isdigit str_strip req d).1 = touch uid (now req) d
        ∨ ∃ x,
            user_id x = uid
            ∧ (∀ k u, touch uid (now req) d !! k = Some u →
                      ¬ (teacher_id u = teacher_id x ∧ user_id u = user_id x))
            ∧ (index str_isdigit str_strip req d).1
              = <[next_id (touch uid (now req) d) := x]> (touch uid (now req) d)
  end.
Proof.
  unfold index. destruct (session_user_id req) as [uid|]; [|done].
  case_bool_decide; [done|]. rewrite index_stamped. cbv zeta.
  destruct (req_method req); [by left|].
  case_bool_decide; [by left|].
  destruct (form req "teacher_id") as [tid|]; [|by left].
  destruct (negb (str_isdigit tid)); [by left|].
  destruct (negb (truthy (Some tid)) || negb (truthy (form req "pushbullet_token")));
    [by left|].
  destruct (first_row _ (touch uid (now req) d)) eqn:Hfirst; [by left|].
  destruct (get_teacher_name str_strip (page_of req) tid) as [name|e]; [|by left].
  destruct (negb (truthy name)); [by left|].
  right. eexists. cbn [fst]. refine (conj _ (conj _ eq_refl)); [reflexivity|].
  intros k u Hk. cbn [teacher_id user_id]. by apply (first_row_None _ _ Hfirst k u).
Qed.

(** X2.  [index] never removes a row and never overwrites one: a row of
    the table is still there after the request, unchanged, or, when it
    belongs to the user of the session, with [last_accessed] set to the
    time of the request. *)
Theorem index_keeps_rows str_isdigit str_strip req d k u :
  d !! k = Some u →
  (index str_isdigit str_strip req d).1 !! k
  = Some (if bool_decide (truthy (session_user_id req)
                          ∧ session_user_id req = Some (user_id u))
          then with_last_accessed (now req) u
          else u).
Proof.
  intros Hk. pose proof (index_cases str_isdigit str_strip req d) as Hc.
  destruct (session_user_id req) as [uid|] eqn:Hs.
  - unfold truthy. case_bool_decide as Hempty.
    + rewrite Hc, Hk. rewrite bool_decide_eq_false_2; [done|].
      intros [Ht _]. apply bool_decide_unpack in Ht. by apply Ht.
    + assert (Htouch : touch uid (now req) d !! k
              = Some (if bool_decide (bool_decide (uid ≠ "") ∧ Some uid = Some (user_id u))
                      then with_last_accessed (now req) u else u)).
      { rewrite lookup_touch, Hk. simpl. f_equal.
        case_bool_decide as H1; case_bool_decide as H2; try done.
        - exfalso. apply H2. split; [by apply bool_decide_pack|by rewrite H1].
        - exfalso. destruct H2 as [_ H2]. injection H2 as ->. by apply H1. }
      destruct Hc as [->|(x & _ & _ & ->)]; [done|].
      rewrite lookup_insert_ne; [done|].
      intros <-. by rewrite next_id_fresh in Htouch.
  - rewrite Hc, Hk. rewrite bool_decide_eq_false_2; [done|]. by intros [[] _].
Qed.

Lemma index_keeps_rows_witness :
  (index ascii_isdigit ascii_strip (create_request "user_a" "21") two_rows).1 !! 2 = Some ben
  ∧ (index ascii_isdigit ascii_strip (create_request "user_a" "21") two_rows).1 !! 1
    = Some (with_last_accessed 100 anna).
Proof.
  split.
  - exact (index_keeps_rows ascii_isdigit ascii_strip (create_request "user_a" "21") two_rows
             2 ben eq_refl).
  - exact (index_keeps_rows ascii_isdigit ascii_strip (create_request "user_a" "21") two_rows
             1 anna eq_refl).
Defined.

(** X3.  A POST to [index] without the form field teacher_id, by a user
    below the limit, ends in an AttributeError (the method isdigit is
    called on None): the reply is a server error, and the owner's rows
    have been stamped before. *)
Theorem index_without_teacher_id str_isdigit str_strip req d uid :
  req_method req = POST →
  session_user_id req = Some uid →
  uid ≠ "" →
  owner_count uid d < 10 →
  form req "teacher_id" = None →
  index str_isdigit str_strip req d
  = (touch uid (now req) d,
     InternalServerError
       (Exception "AttributeError" "'NoneType' object has no attribute 'isdigit'")).
Proof.
  intros Hm Hs Hne Hcap Hform. unfold index. rewrite Hs, Hm, index_stamped.
  rewrite bool_decide_eq_false_2 by done. cbv zeta. rewrite owner_count_touch.
  rewrite bool_decide_eq_false_2 by lia. by rewrite Hform.
Qed.

Lemma index_without_teacher_id_witness :
  (index ascii_isdigit ascii_strip
     (mkRequest POST (Some "user_a") (λ _, None) 200 200
        (λ url, Raise (RequestException "unreachable")))
     (<[7 := with_last_accessed 1 anna]> ∅)).2
  = InternalServerError
      (Exception "AttributeError" "'NoneType' object has no attribute 'isdigit'").
Proof.
  refine (f_equal snd
    (index_without_teacher_id ascii_isdigit ascii_strip
       (mkRequest POST (Some "user_a") (λ _, None) 200 200
          (λ url, Raise (RequestException "unreachable")))
       (<[7 := with_last_accessed 1 anna]> ∅) "user_a" _ _ _ _ _)).
  - reflexivity.
  - reflexivity.
  - discriminate.
  - vm_compute; reflexivity.
  - reflexivity.
Defined.

(** [set_user] on a POST with a user id that is not empty: the decision
    depends on whether the id owns a row. *)
Lemma set_user_post str_strip req d uid action :
  req_method req = POST →
  str_strip (default "" (form req "user_id")) = uid →
  uid ≠ "" →
  form req "action" = Some action →
  set_user str_strip req d
  = if bool_decide (action = "login") then
      if bool_decide (owner_count uid d = 0)
      then (session_user_id req,
            Redirect "/set_user"
              (Some ("このユーザーIDは存在しません。もう一度確認してください。", "danger")))
      else (Some uid,
            Redirect "/" (Some ("ユーザーIDでログインしました: " +:+ uid, "success")))
    else if bool_decide (action = "register") then
      if bool_decide (owner_count uid d = 0)
      then (Some uid,
            Redirect "/" (Some ("ユーザーIDを登録しました: " +:+ uid, "success")))
      else (session_user_id req,
            Redirect "/set_user"
              (Some ("このユーザーIDはすでに存在します。別のIDをお試しください。", "danger")))
    else (session_user_id req, Redirect "/set_user" (Some ("不正な操作です。", "danger"))).
Proof.
  intros Hm Huid Hne Hact. unfold set_user. rewrite Hm, Huid, Hact. cbv zeta.
  rewrite bool_decide_eq_false_2 by done.
  assert (Hfirst : ∀ X (a b : X),
    match first_row (λ u, user_id u = uid) d with Some _ => a | None => b end
    = if bool_decide (owner_count uid d = 0) then b else a).
  { intros X a b. case_bool_decide as Hc.
    - apply first_row_owner_None in Hc. by rewrite Hc.
    - destruct (first_row _ d) eqn:E; [done|].
      by apply first_row_owner_None in E. }
  destruct (decide (action = "login")) as [->|Hl].
  { rewrite !bool_decide_eq_true_2 by done. apply Hfirst. }
  rewrite (bool_decide_eq_false_2 (Some action = Some "login")) by congruence.
  rewrite (bool_decide_eq_false_2 (action = "login")) by done.
  destruct (decide (action = "register")) as [->|Hr].
  { rewrite !bool_decide_eq_true_2 by done. apply Hfirst. }
  rewrite (bool_decide_eq_false_2 (Some action = Some "register")) by congruence.
  by rewrite (bool_decide_eq_false_2 (action = "register")) by done.
Qed.

(** X4.  Once [index] has answered a request of a user with "success",
    that user id owns a row: a later login with it is accepted and sets
    the session, and a later registration of it is refused and leaves
    the session alone. *)
Theorem created_owner_can_log_in str_isdigit str_strip req d loc msg uid req2 action :
  (index str_isdigit str_strip req d).2 = Redirect loc (Some (msg, "success")) →
  session_user_id req = Some uid →
  req_method req2 = POST →
  str_strip (default "" (form req2 "user_id")) = uid →
  form req2 "action" = Some action →
  set_user str_strip req2 (index str_isdigit str_strip req d).1
  = if bool_decide (action = "login") then
      (Some uid, Redirect "/" (Some ("ユーザーIDでログインしました: " +:+ uid, "success")))
    else if bool_decide (action = "register") then
      (session_user_id req2,
       Redirect "/set_user"
         (Some ("このユーザーIDはすでに存在します。別のIDをお試しください。", "danger")))
    else (session_user_id req2, Redirect "/set_user" (Some ("不正な操作です。", "danger"))).
Proof.
  intros Hok Hs Hm Huid Hact.
  destruct (index_success_inv _ _ _ _ _ _ Hok)
    as (uid' & tid & token & name & Hs' & Hne & _ & _ & _ & _ & _ & _ & _ & _ & _ & _ & Hidx).
  rewrite Hs in Hs'. injection Hs' as <-.
  rewrite (set_user_post str_strip req2 _ uid action Hm Huid Hne Hact).
  assert (Hcount : owner_count uid (index str_isdigit str_strip req d).1 ≠ 0).
  { rewrite Hidx. cbn [fst]. unfold owner_count.
    rewrite map_filter_insert_True by done.
    rewrite map_size_insert_None; [lia|].
    apply map_lookup_filter_None. left. apply next_id_fresh. }
  by rewrite (bool_decide_eq_false_2 _ Hcount).
Qed.

Lemma created_owner_can_log_in_witness :
  (set_user ascii_strip (set_user_request "login" "user_c")
     (index ascii_isdigit ascii_strip (create_request "user_c" "21") two_rows).1).1
  = Some "user_c"
  ∧ (set_user ascii_strip (set_user_request "login" "user_c") two_rows).1 = None.
Proof.
  split; [|vm_compute; reflexivity].
  refine (f_equal fst
    (created_owner_can_log_in ascii_isdigit ascii_strip (create_request "user_c" "21") two_rows
       "/" "Clara (講師番号: 21) を登録しました！" "user_c"
       (set_user_request "login" "user_c") "login" _ _ _ _ _)).
  - vm_compute; reflexivity.
  - reflexivity.
  - reflexivity.
  - reflexivity.
  - reflexivity.
Defined.

(** X5.  The route takes POST only: a GET is answered 405 and leaves the
    table alone.  On a POST [reset_user] removes the rows of the user of
    the session, all of them and no other: a row stays exactly when the
    session has no user id, or an empty one, or another one than the
    row.  The user of the session has no row left; every other owner has
    as many as before. *)
Theorem reset_user_removes_the_owner req d :
  match req_method req with
  | GET => reset_user req d = (d, MethodNotAllowed)
  | POST =>
      (∀ k, (reset_user req d).1 !! k
            = match d !! k with
              | Some u =>
                  if bool_decide (truthy (session_user_id req)
                                  ∧ session_user_id req = Some (user_id u))
                  then None else Some u
              | None => None
              end)
      ∧ ∀ uid, owner_count uid (reset_user req d).1
               = if bool_decide (truthy (session_user_id req)
                                 ∧ session_user_id req = Some uid)
                 then 0 else owner_count uid d
  end.
Proof.
  unfold reset_user. destruct (req_method req); [done|]. cbn [fst].
  destruct (truthy (session_user_id req)) eqn:Ht.
  - split.
    + intros k. rewrite map_lookup_filter. destruct (d !! k) as [u|]; [|done].
      simpl. case_bool_decide as H1.
      * destruct H1 as [_ H1]. rewrite option_guard_False; [done|].
        intros H2. cbn in H2. congruence.
      * rewrite option_guard_True; [done|]. cbn. intros H2. apply H1. by split.
    + intros uid. case_bool_decide as H1.
      * destruct H1 as [_ H1]. apply owner_count_zero. intros k u Hk Hu.
        apply map_lookup_filter_Some in Hk as [_ Hk]. cbn in Hk. congruence.
      * unfold owner_count. do 2 f_equal. apply map_eq. intros k.
        apply option_eq. intros u. rewrite !map_lookup_filter_Some. cbn.
        split; [naive_solver|]. intros [Hk Hu]. repeat split; try done.
        intros Hs. apply H1. split; [done|]. congruence.
  - split.
    + intros k. destruct (d !! k); [|done].
      rewrite bool_decide_eq_false_2; [done|]. by intros [[] _].
    + intros uid. rewrite bool_decide_eq_false_2; [done|]. by intros [[] _].
Qed.

(** X6.  After a POST to [reset_user] by a user the user id is free
    again: a login with it is refused, a registration of it is
    accepted. *)
Theorem reset_frees_the_user_id str_strip req d uid req2 action :
  req_method req = POST →
  session_user_id req = Some uid →
  uid ≠ "" →
  req_method req2 = POST →
  str_strip (default "" (form req2 "user_id")) = uid →
  form req2 "action" = Some action →
  set_user str_strip req2 (reset_user req d).1
  = if bool_decide (action = "login") then
      (session_user_id req2,
       Redirect "/set_user"
         (Some ("このユーザーIDは存在しません。もう一度確認してください。", "danger")))
    else if bool_decide (action = "register") then
      (Some uid, Redirect "/" (Some ("ユーザーIDを登録しました: " +:+ uid, "success")))
    else (session_user_id req2, Redirect "/set_user" (Some ("不正な操作です。", "danger"))).
Proof.
  intros Hpost Hs Hne Hm Huid Hact.
  rewrite (set_user_post str_strip req2 _ uid action Hm Huid Hne Hact).
  assert (Hcount : owner_count uid (reset_user req d).1 = 0).
  { apply owner_count_zero. intros k u Hk Hu. unfold reset_user in Hk.
    rewrite Hpost in Hk. cbn [fst] in Hk. rewrite Hs in Hk. unfold truthy in Hk. rewrite bool_decide_eq_true_2 in Hk by done.
    apply map_lookup_filter_Some in Hk as [_ Hk]. cbn in Hk. congruence. }
  by rewrite (bool_decide_eq_true_2 _ Hcount).
Qed.

Lemma reset_frees_the_user_id_witness :
  (set_user ascii_strip (set_user_request "login" "user_a") two_rows).1 = Some "user_a"
  ∧ (set_user ascii_strip (set_user_request "login" "user_a")
       (reset_user (delete_request "user_a" "101") two_rows).1).1 = None
  ∧ (set_user ascii_strip (set_user_request "register" "user_a")
       (reset_user (delete_request "user_a" "101") two_rows).1).1 = Some "user_a".
Proof.
  split; [vm_compute; reflexivity|]. split.
  - refine (f_equal fst
      (reset_frees_the_user_id ascii_strip (delete_request "user_a" "101") two_rows "user_a"
         (set_user_request "login" "user_a") "login" _ _ _ _ _ _));
      first [reflexivity | discriminate].
  - refine (f_equal fst
      (reset_frees_the_user_id ascii_strip (delete_request "user_a" "101") two_rows "user_a"
         (set_user_request "register" "user_a") "register" _ _ _ _ _ _));
      first [reflexivity | discriminate].
Defined.

(** What [delete_teacher] does, case by case. *)
Lemma delete_teacher_cases req d :
  ((delete_teacher req d).1 = d
   ∧ ∀ loc msg, (delete_teacher req d).2 ≠ Redirect loc (Some (msg, "success")))
  ∨ ∃ k u tid uid,
      req_method req = POST
      ∧ form req "teacher_id" = Some tid
      ∧ session_user_id req = Some uid
      ∧ d !! k = Some u ∧ teacher_id u = tid ∧ user_id u = uid
      ∧ delete_teacher req d
        = (delete k d,
           Redirect "/" (Some ("講師番号 " +:+ tid +:+ " を削除しました！", "success"))).
Proof.
  unfold delete_teacher. destruct (req_method req); [by left|]. cbv zeta.
  destruct (form req "teacher_id") as [tid|]; [|by left].
  destruct (session_user_id req) as [uid|]; [|by left].
  destruct (first_row _ d) as [[k u]|] eqn:E; [|by left].
  right. apply first_row_Some in E as (Hk & Ht & Hu).
  by exists k, u, tid, uid.
Qed.



(** X8.  Round trip: when [index] has answered "success", a POST to
    [delete_teacher] from the same session with the same teacher id
    removes the row just added and nothing else: the table is the one
    before the registration, the owner's rows stamped. *)
Theorem create_then_delete str_isdigit str_strip req d loc msg uid req2 :
  (index str_isdigit str_strip req d).2 = Redirect loc (Some (msg, "success")) →
  session_user_id req = Some uid →
  req_method req2 = POST →
  session_user_id req2 = session_user_id req →
  form req2 "teacher_id" = form req "teacher_id" →
  (delete_teacher req2 (index str_isdigit str_strip req d).1).1
    = touch uid (now req) d
  ∧ ∃ text, (delete_teacher req2 (index str_isdigit str_strip req d).1).2
            = Redirect "/" (Some (text, "success")).
Proof.
  intros Hok Hs Hm Hs2 Hf2.
  destruct (index_success_inv _ _ _ _ _ _ Hok)
    as (uid' & tid & token & name & Hs' & Hne & _ & Htid & _ & _ & _ & _ & _ & Hnone & _ & _ & Hidx).
  rewrite Hs in Hs'. injection Hs' as <-. rewrite Hidx. cbn [fst].
  set (d1 := touch uid (now req) d) in *.
  set (x := mkUserData tid (Some name) token 0 uid (now_at_insert req)) in *.
  destruct (delete_teacher_cases req2 (<[next_id d1 := x]> d1))
    as [[_ Hno]|(k & u & tid' & uid'' & _ & Ht' & Hu' & Hk & Htk & Huk & Hdel)].
  - exfalso. unfold delete_teacher in Hno. rewrite Hm, Hf2, Htid, Hs2, Hs in Hno.
    cbv zeta in Hno.
    destruct (first_row_is_Some (λ u, teacher_id u = tid ∧ user_id u = uid)
                (<[next_id d1 := x]> d1) (next_id d1) x) as [[k u] Hfirst];
      [by rewrite lookup_insert_eq|done|].
    rewrite Hfirst in Hno. by eapply Hno.
  - rewrite Hf2, Htid in Ht'. injection Ht' as <-.
    rewrite Hs2, Hs in Hu'. injection Hu' as <-.
    rewrite Hdel. cbn [fst snd]. split; [|by eexists].
    destruct (decide (k = next_id d1)) as [->|Hne'].
    + apply delete_insert_id, next_id_fresh.
    + exfalso. rewrite lookup_insert_ne in Hk by done. by apply (Hnone k u Hk).
Qed.

Lemma create_then_delete_witness :
  (delete_teacher (delete_request "user_a" "21")
     (index ascii_isdigit ascii_strip (create_request "user_a" "21") two_rows).1).1
  = touch "user_a" 100 two_rows.
Proof.
  refine (proj1 (create_then_delete ascii_isdigit ascii_strip (create_request "user_a" "21")
                   two_rows "/" "Clara (講師番号: 21) を登録しました！" "user_a"
                   (delete_request "user_a" "21") _ _ _ _ _)).
  - vm_compute; reflexivity.
  - reflexivity.
  - reflexivity.
  - reflexivity.
  - reflexivity.
Defined.

(** *** No owner has a teacher twice *)

Lemma unique_pairsb_sound d : unique_pairsb d = true → unique_pairs d.
Proof.
  unfold unique_pairsb. intros Hnd. apply bool_decide_eq_true_1 in Hnd.
  assert (Hinj : ∀ l : list (Z * UserData),
    NoDup ((λ kv : Z * UserData, (teacher_id kv.2, user_id kv.2)) <$> l) →
    ∀ a b, a ∈ l → b ∈ l →
      (teacher_id a.2, user_id a.2) = (teacher_id b.2, user_id b.2) → a = b).
  { induction l as [|c l IH]; intros Hl a b Ha Hb Hab; [by apply elem_of_nil in Ha|].
    rewrite fmap_cons in Hl. apply NoDup_cons in Hl as [Hc Hl].
    apply elem_of_cons in Ha as [->|Ha]; apply elem_of_cons in Hb as [->|Hb].
    - done.
    - exfalso. apply Hc. rewrite Hab.
      by apply (list_elem_of_fmap_2 (λ kv : Z * UserData, (teacher_id kv.2, user_id kv.2))).
    - exfalso. apply Hc. rewrite <- Hab.
      by apply (list_elem_of_fmap_2 (λ kv : Z * UserData, (teacher_id kv.2, user_id kv.2))).
    - by apply IH. }
  intros i j u v Hi Hj Ht Hu.
  apply elem_of_map_to_list in Hi, Hj.
  assert ((i, u) = (j, v)) as Heq; [|by injection Heq].
  apply (Hinj _ Hnd); [done|done|]. cbn. by rewrite Ht, Hu.
Qed.

Lemma unique_pairs_subseteq (d1 d2 : gmap Z UserData) :
  d1 ⊆ d2 → unique_pairs d2 → unique_pairs d1.
Proof.
  intros Hsub Hu i j u v Hi Hj. apply (Hu i j u v); by eapply lookup_weaken.
Qed.

Lemma unique_pairs_same_pairs (d1 d2 : gmap Z UserData) :
  (∀ k, (λ u, (teacher_id u, user_id u)) <$> d1 !! k
        = (λ u, (teacher_id u, user_id u)) <$> d2 !! k) →
  unique_pairs d2 → unique_pairs d1.
Proof.
  intros Hsame Hu i j u v Hi Hj Ht Huid.
  pose proof (Hsame i) as Hsi. pose proof (Hsame j) as Hsj.
  rewrite Hi in Hsi. rewrite Hj in Hsj. simpl in Hsi, Hsj.
  destruct (d2 !! i) as [u'|] eqn:Hi'; [|done].
  destruct (d2 !! j) as [v'|] eqn:Hj'; [|done].
  simpl in Hsi, Hsj. injection Hsi as Ht1 Hu1. injection Hsj as Ht2 Hu2.
  apply (Hu i j u' v'); congruence.
Qed.

Lemma unique_pairs_touch uid t d : unique_pairs d → unique_pairs (touch uid t d).
Proof.
  apply unique_pairs_same_pairs. intros k. rewrite lookup_touch.
  destruct (d !! k) as [u|]; [|done]. simpl. by case_bool_decide.
Qed.

Lemma unique_pairs_insert (d : gmap Z UserData) key x :
  (∀ k u, d !! k = Some u → ¬ (teacher_id u = teacher_id x ∧ user_id u = user_id x)) →
  unique_pairs d → unique_pairs (<[key := x]> d).
Proof.
  intros Hnew Hu i j u v Hi Hj Ht Huid.
  apply lookup_insert_Some in Hi as [[<- <-]|[Hik Hi]];
    apply lookup_insert_Some in Hj as [[<- <-]|[Hjk Hj]].
  - done.
  - exfalso. apply (Hnew j v Hj). by split.
  - exfalso. apply (Hnew i u Hi). by split.
  - by apply (Hu i j u v).
Qed.

Lemma unique_pairs_index str_isdigit str_strip req d :
  unique_pairs d → unique_pairs (index str_isdigit str_strip req d).1.
Proof.
  intros Hu. pose proof (index_cases str_isdigit str_strip req d) as Hc.
  destruct (session_user_id req) as [uid|]; [|by rewrite Hc].
  case_bool_decide; [by rewrite Hc|].
  destruct Hc as [->|(x & _ & Hnew & ->)]; [by apply unique_pairs_touch|].
  apply unique_pairs_insert; [done|]. by apply unique_pairs_touch.
Qed.

Lemma unique_pairs_poll w st :
  unique_pairs (database st) →
  unique_pairs (database (check_teacher_availability w st).2).
Proof.
  apply unique_pairs_same_pairs. intros k.
  rewrite check_teacher_availability_eq. cbn [snd]. unfold run_state, run_db.
  cbn [database]. destruct (query_all_error w); [done|].
  destruct (loop_db_lookup_shape w k (all_rows (database st)) (database st))
    as [->|(c & u & -> & ->)]; done.
Qed.

(** X9.  No handler and no run of the job gives an owner the same teacher
    twice: a table in which no two rows agree in teacher id and user id
    stays such a table through every sequence of requests and runs. *)
Theorem unique_pairs_kept str_isdigit str_strip ops st :
  unique_pairs (database st) →
  unique_pairs (database (apply_operations str_isdigit str_strip ops st)).
Proof.
  revert st. induction ops as [|op ops IH]; intros st Hu; [done|].
  cbn [apply_operations foldl]. apply IH.
  destruct op as [req|req|req|w]; cbn [apply_operation database set_database].
  - by apply unique_pairs_index.
  - destruct (delete_teacher_cases req (database st))
      as [[-> _]|(k & u & tid & uid & _ & _ & _ & _ & _ & _ & ->)]; [done|].
    eapply unique_pairs_subseteq; [apply delete_subseteq|done].
  - eapply unique_pairs_subseteq; [|done]. unfold reset_user.
    destruct (req_method req); [done|]. cbn [fst].
    destruct (truthy (session_user_id req)); [apply map_filter_subseteq|done].
  - by apply unique_pairs_poll.
Qed.

Lemma unique_pairs_kept_witness :
  unique_pairs
    (database
       (apply_operations ascii_isdigit ascii_strip
          [OpIndex (create_request "user_a" "21");
           OpIndex (create_request "user_a" "21");
           OpPoll world_open]
          (start two_rows 0)))
  ∧ owner_count "user_a"
      (database
         (apply_operations ascii_isdigit ascii_strip
            [OpIndex (create_request "user_a" "21");
             OpIndex (create_request "user_a" "21");
             OpPoll world_open]
            (start two_rows 0))) = 2.
Proof.
  split; [|vm_compute; reflexivity].
  apply (unique_pairs_kept ascii_isdigit ascii_strip _ (start two_rows 0)).
  apply unique_pairsb_sound. vm_compute; reflexivity.
Defined.

(** ** More on the job *)

(** A run that is not aborted: what it leaves in a row. *)
Lemma full_loop_lookup w l d k u :
  NoDup l.*1 → no_abort w l → (k, u) ∈ l →
  loop_db w l d !! k
  = (match (iteration w (k, u)).2 with
     | Updated c => with_last_available_count c
     | _ => λ x, x
     end) <$> d !! k.
Proof.
  intros Hnd Hna Hin. apply list_elem_of_split in Hin as (us1 & us2 & ->).
  rewrite fmap_app, fmap_cons in Hnd.
  apply NoDup_app in Hnd as (_ & Hdisj & Hnd2).
  apply NoDup_cons in Hnd2 as [Hnot2 _].
  apply Forall_app in Hna as [Hna1 Hna2]. apply Forall_cons in Hna2 as [Hk _].
  rewrite loop_db_app by done. cbn [loop_db fst].
  assert (Hnot1 : k ∉ us1.*1) by (intros Hin; eapply Hdisj; [done|by left]).
  destruct (iteration w (k, u)).2 as [|c|e] eqn:E.
  - rewrite !loop_db_lookup_notin by done. by destruct (d !! k).
  - rewrite loop_db_lookup_notin by done.
    by rewrite lookup_alter_eq, loop_db_lookup_notin.
  - by destruct (Hk e).
Qed.

Lemma iteration_updated_inv w k u c :
  (iteration w (k, u)).2 = Updated c →
  probe w k (teacher_id u) = Ok (Some c) ∧ commit_error w k = None ∧ 0 <= c.
Proof.
  unfold iteration, probe. cbn [fst snd].
  destruct (requests_get w k (teacher_page (teacher_id u))) as [resp|e]; cbn.
  - destruct (_ || _); cbn; [done|].
    destruct (commit_error w k); [done|]. intros [= <-]. repeat split. lia.
  - destruct (is_RequestException e); cbn; done.
Qed.

(** X10.  A run of the job writes [last_available_count] and nothing
    else: it adds no row, removes none, and leaves every other field of
    every row as it was.  With the counts erased, the tables before and
    after are equal. *)
Theorem run_writes_counts_only w st :
  with_last_available_count 0 <$> database (check_teacher_availability w st).2
  = with_last_available_count 0 <$> database st.
Proof.
  rewrite check_teacher_availability_eq. cbn [snd]. unfold run_state, run_db.
  cbn [database]. destruct (query_all_error w); [done|].
  apply map_eq. intros k. rewrite !lookup_fmap.
  destruct (loop_db_lookup_shape w k (all_rows (database st)) (database st))
    as [->|(c & u & -> & ->)]; done.
Qed.

Lemma loop_db_counts w l : ∀ d,
  counts_not_negative d → counts_not_negative (loop_db w l d).
Proof.
  induction l as [|[r u] l IH]; intros d Hd; [done|]. simpl.
  destruct (iteration w (r, u)).2 as [|c|e] eqn:E; [by apply IH| |done].
  apply IH. intros k v Hk.
  destruct (decide (r = k)) as [->|Hne].
  - rewrite lookup_alter_eq in Hk. destruct (d !! k); [|done].
    injection Hk as <-. simpl. by apply iteration_updated_inv in E as (_ & _ & Hc).
  - rewrite lookup_alter_ne in Hk by done. by apply (Hd k v).
Qed.

Lemma index_counts str_isdigit str_strip req d :
  counts_not_negative d →
  counts_not_negative (index str_isdigit str_strip req d).1.
Proof.
  intros Hd.
  assert (Ht : ∀ uid t, counts_not_negative (touch uid t d)).
  { intros uid t k v Hk. rewrite lookup_touch in Hk.
    destruct (d !! k) as [u|] eqn:Hu; [|done]. injection Hk as <-.
    case_bool_decide; by apply (Hd k u). }
  unfold index. destruct (session_user_id req) as [uid|]; [|done].
  case_bool_decide; [done|]. rewrite index_stamped. cbv zeta.
  destruct (req_method req); [apply Ht|].
  case_bool_decide; [apply Ht|].
  destruct (form req "teacher_id") as [tid|]; [|apply Ht].
  destruct (negb (str_isdigit tid)); [apply Ht|].
  destruct (negb (truthy (Some tid)) || negb (truthy (form req "pushbullet_token")));
    [apply Ht|].
  destruct (first_row _ (touch uid (now req) d)); [apply Ht|].
  destruct (get_teacher_name str_strip (page_of req) tid) as [name|e]; [|apply Ht].
  destruct (negb (truthy name)); [apply Ht|].
  cbn [fst]. intros k v Hk.
  apply lookup_insert_Some in Hk as [[_ <-]|[_ Hk]]; [done|by apply (Ht uid (now req) k v)].
Qed.

(** X11.  Stored counts are never negative: a table without negative
    counts stays one through every sequence of requests and runs (a new
    row starts at 0, a run stores the length of a list). *)
Theorem counts_stay_not_negative str_isdigit str_strip ops st :
  counts_not_negative (database st) →
  counts_not_negative (database (apply_operations str_isdigit str_strip ops st)).
Proof.
  revert st. induction ops as [|op ops IH]; intros st Hd; [done|].
  cbn [apply_operations foldl]. apply IH.
  destruct op as [req|req|req|w]; cbn [apply_operation database set_database].
  - by apply index_counts.
  - destruct (delete_teacher_cases req (database st))
      as [[-> _]|(k & u & tid & uid & _ & _ & _ & _ & _ & _ & ->)]; [done|].
    cbn [fst]. intros j v Hj. apply lookup_delete_Some in Hj as [_ Hj].
    by apply (Hd j v).
  - unfold reset_user. destruct (req_method req); [done|].
    cbn [fst]. destruct (truthy (session_user_id req)); [|done].
    intros j v Hj. apply map_lookup_filter_Some in Hj as [Hj _]. by apply (Hd j v).
  - rewrite check_teacher_availability_eq. cbn [snd]. unfold run_state, run_db.
    cbn [database]. destruct (query_all_error w); [done|]. by apply loop_db_counts.
Qed.

Lemma counts_stay_not_negative_witness :
  counts_not_negative
    (database
       (apply_operations ascii_isdigit ascii_strip
          [OpPoll world_open; OpIndex (create_request "user_a" "21"); OpPoll world_mixed]
          (start two_rows 0))).
Proof.
  apply (counts_stay_not_negative ascii_isdigit ascii_strip _ (start two_rows 0)).
  intros k u Hk. cbn [database start] in Hk. unfold two_rows in Hk.
  apply lookup_insert_Some in Hk as [[_ <-]|[_ Hk]]; [vm_compute; congruence|].
  apply lookup_insert_Some in Hk as [[_ <-]|[_ Hk]]; [vm_compute; congruence|].
  by rewrite lookup_empty in Hk.
Defined.

(** *** Running the job again in the same world *)

Lemma loop_db_fixed w l : ∀ d,
  (∀ k u c, (k, u) ∈ l → (iteration w (k, u)).2 = Updated c →
            alter (with_last_available_count c) k d = d) →
  loop_db w l d = d.
Proof.
  induction l as [|[r u] l IH]; intros d H; [done|]. simpl.
  assert (Hl : ∀ k v c, (k, v) ∈ l → (iteration w (k, v)).2 = Updated c →
                 alter (with_last_available_count c) k d = d).
  { intros k v c Hin. apply H. by right. }
  destruct (iteration w (r, u)).2 as [|c|e] eqn:E; [by apply IH| |done].
  rewrite (H r u c) by (done || by left). by apply IH.
Qed.

(** After a run that got through all rows, every row is at rest in that
    world: its probe fails, or gives the count the row holds and the
    commit works. *)
Lemma full_run_rests w st n st1 k u' :
  query_all_error w = None →
  for_users w (all_rows (database st)) 0 (new_session st) = (Ok n, st1) →
  database (check_teacher_availability w st).2 !! k = Some u' →
  iteration w (k, u')
  = ([Sleep k; Get k (teacher_page (teacher_id u'))], Failed)
  ∨ iteration w (k, u')
    = ([Sleep k; Get k (teacher_page (teacher_id u'));
        Commit k [(k, last_available_count u')]],
       Updated (last_available_count u')).
Proof.
  intros Hq Hrun Hk.
  destruct (for_users_ok_state w _ 0 (new_session st) n st1 eq_refl Hrun) as [_ Hres].
  apply loop_result_no_abort in Hres.
  rewrite check_teacher_availability_eq in Hk. cbn [snd] in Hk.
  unfold run_state, run_db in Hk. cbn [database] in Hk. rewrite Hq in Hk.
  destruct (database st !! k) as [u|] eqn:Hu.
  2:{ destruct (loop_db_lookup_shape w k (all_rows (database st)) (database st))
        as [Heq|(c & v & Hv & _)]; congruence. }
  rewrite (full_loop_lookup w _ _ k u) in Hk;
    [|apply NoDup_fst_all_rows|done|by apply elem_of_all_rows].
  rewrite Hu in Hk. simpl in Hk.
  destruct (iteration w (k, u)).2 as [|c|e] eqn:E; injection Hk as <-.
  - left. apply iteration_failed_iff in E. cbn [fst snd] in E.
    unfold iteration. cbn [fst snd]. by rewrite E.
  - right. apply iteration_updated_inv in E as (Hp & Hc & _).
    unfold iteration, decision_events. cbn [fst snd teacher_id last_available_count
      with_last_available_count]. rewrite Hp, Hc.
    by rewrite bool_decide_eq_false_2 by lia.
  - unfold no_abort in Hres. rewrite Forall_forall in Hres.
    destruct (Hres (k, u) (proj2 (elem_of_all_rows _ _ _) Hu) e E).
Qed.

(** X12.  When a run has got through all rows, a second run in the same
    world notifies nobody and leaves the table as the first run left it:
    a notification is not repeated while the site shows the same. *)
Theorem second_run_is_silent w st n st1 row :
  query_all_error w = None →
  for_users w (all_rows (database st)) 0 (new_session st) = (Ok n, st1) →
  let st' := (check_teacher_availability w st).2 in
  let st'' := (check_teacher_availability w st').2 in
  filter (is_notifier_call row) (new_events st' st'') = []
  ∧ filter (is_push_link row) (new_events st' st'') = []
  ∧ database st'' = database st'.
Proof.
  intros Hq Hrun st' st''. subst st' st''.
  pose proof (full_run_rests w st n st1) as Hrest.
  split; [|split].
  - apply (filter_run_nil _ w _ row (is_notifier_call_row row)).
    intros u Hu. destruct (Hrest row u Hq Hrun Hu) as [->| ->]; by filter_events.
  - apply (filter_run_nil _ w _ row (is_push_link_row row)).
    intros u Hu. destruct (Hrest row u Hq Hrun Hu) as [->| ->]; by filter_events.
  - set (st' := (check_teacher_availability w st).2) in *.
    rewrite (check_teacher_availability_eq w st'). cbn [snd].
    unfold run_state, run_db. cbn [database]. rewrite Hq.
    apply loop_db_fixed. intros k u c Hin Hup.
    apply elem_of_all_rows in Hin.
    destruct (Hrest k u Hq Hrun Hin) as [Hit|Hit]; rewrite Hit in Hup; [done|].
    cbn [snd] in Hup. injection Hup as <-.
    apply map_eq. intros j. destruct (decide (k = j)) as [<-|Hne].
    + rewrite lookup_alter_eq, Hin. simpl. by destruct u.
    + by rewrite lookup_alter_ne.
Qed.

Lemma second_run_is_silent_witness :
  filter (is_notifier_call 1)
    (new_events (start two_rows 0)
       (check_teacher_availability world_open (start two_rows 0)).2)
  = [NewPushbullet 1 "token-a"]
  ∧ filter (is_notifier_call 1)
      (new_events (check_teacher_availability world_open (start two_rows 0)).2
         (check_teacher_availability world_open
            (check_teacher_availability world_open (start two_rows 0)).2).2)
    = [].
Proof.
  split; [vm_compute; reflexivity|].
  refine (proj1 (second_run_is_silent world_open (start two_rows 0) 0
    (for_users world_open (all_rows (database (start two_rows 0))) 0
       (new_session (start two_rows 0))).2 1 _ _)).
  - reflexivity.
  - vm_compute; reflexivity.
Defined.

(** *** Once per row and run *)

Lemma filter_loop_one (P : event → Prop) `{!∀ e, Decision (P e)} w row l :
  (∀ e, P e → row_of e = Some row) →
  NoDup l.*1 →
  filter P (loop_events w l) = []
  ∨ ∃ u, (row, u) ∈ l ∧ filter P (loop_events w l) = filter P (iteration w (row, u)).1.
Proof.
  intros HP. induction l as [|[r u] l IH]; intros Hnd; [by left|].
  rewrite fmap_cons in Hnd. apply NoDup_cons in Hnd as [Hr Hnd].
  simpl. rewrite filter_app. destruct (decide (r = row)) as [->|Hne].
  - right. exists u. split; [by left|].
    destruct (iteration w (row, u)).2;
      by rewrite ?(filter_other_loop P row HP w l Hr), ?filter_nil, app_nil_r.
  - rewrite (filter_other_iteration P row HP w r u Hne). cbn [app].
    destruct (iteration w (r, u)).2; [| |by left];
      (destruct (IH Hnd) as [->|(v & Hv & ->)]; [by left|right; exists v; split; [by right|done]]).
Qed.

Lemma iteration_once w row u :
  (length (filter (is_get row) (iteration w (row, u)).1) <= 1)%nat
  ∧ (length (filter (is_notifier_call row) (iteration w (row, u)).1) <= 1)%nat
  ∧ (length (filter (is_push_link row) (iteration w (row, u)).1) <= 1)%nat
  ∧ (length (filter (is_commit row) (iteration w (row, u)).1) <= 1)%nat.
Proof.
  unfold iteration, decision_events, notify_events. cbn [fst snd].
  destruct (probe w row (teacher_id u)) as [[c|]|e]; cbn [fst];
    [|repeat split; filter_events; simpl; lia..].
  case_bool_decide;
    [destruct (Pushbullet_init w row _); [|destruct (push_link_result w row _ _)]|];
    repeat split; filter_events; simpl; lia.
Qed.

(** X13.  In one run the job sends at most one request for a row, calls
    the notifier at most once for it, pushes at most one link and commits
    at most once for it, in every world. *)
Theorem each_row_at_most_once w st row :
  let evs := new_events st (check_teacher_availability w st).2 in
  (length (filter (is_get row) evs) <= 1)%nat
  ∧ (length (filter (is_notifier_call row) evs) <= 1)%nat
  ∧ (length (filter (is_push_link row) evs) <= 1)%nat
  ∧ (length (filter (is_commit row) evs) <= 1)%nat.
Proof.
  intros evs. subst evs. rewrite new_events_run. unfold run_trace.
  destruct (query_all_error w); [repeat split; filter_events; simpl; lia|].
  assert (Hone : ∀ (P : event → Prop) `{!∀ e, Decision (P e)},
    (∀ e, P e → row_of e = Some row) →
    (∀ u, (length (filter P (iteration w (row, u)).1) <= 1)%nat) →
    (length (filter P (loop_events w (all_rows (database st)) ++ final_lines w st))
     <= 1)%nat).
  { intros P HdP HP Hit. rewrite filter_app.
    assert (filter P (final_lines w st) = []) as ->.
    { pose proof (final_lines_rows w st) as Hrows.
      induction Hrows as [|e l He _ IH]; [done|].
      rewrite filter_cons_False; [done|]. intros He'. apply HP in He'. congruence. }
    rewrite app_nil_r.
    destruct (filter_loop_one P w row (all_rows (database st)) HP
                (NoDup_fst_all_rows _)) as [->|(u & _ & ->)]; [simpl; lia|apply Hit]. }
  repeat split.
  - apply (Hone _ _ (is_get_row row)). intros u. apply iteration_once.
  - apply (Hone _ _ (is_notifier_call_row row)). intros u. apply iteration_once.
  - apply (Hone _ _ (is_push_link_row row)). intros u. apply iteration_once.
  - apply (Hone _ _ (is_commit_row row)). intros u. apply iteration_once.
Qed.

(** *** More on the streak *)

(** X14.  A run whose body raises leaves the streak as it was, neither
    counted as a full failure nor reset, and its last printed line is the
    message of the exception. *)
Theorem aborted_run_keeps_streak w st e st1 :
  check_body w (new_session st) = (Raise e, st1) →
  consecutive_errors (check_teacher_availability w st).2 = consecutive_errors st
  ∧ last (trace (check_teacher_availability w st).2) = Some (Print (run_failed_line e)).
Proof.
  intros Hbody. rewrite check_body_eq in Hbody by done.
  rewrite check_teacher_availability_eq. cbn [snd].
  unfold run_state, run_streak, run_trace, final_lines. cbn [consecutive_errors trace].
  destruct (query_all_error w) as [e'|].
  { injection Hbody as -> _. split; [done|]. by rewrite last_app. }
  destruct (for_users_spec w (all_rows (database st)) 0 (new_session st) eq_refl)
    as (s' & Hspec & _).
  change (database (new_session st)) with (database st) in *.
  rewrite Hspec in Hbody. cbv zeta.
  destruct (loop_result w (all_rows (database st)) 0) as [n|e'].
  - by case_bool_decide.
  - injection Hbody as -> _. split; [done|]. by rewrite !last_app.
Qed.

Lemma aborted_run_keeps_streak_witness :
  consecutive_errors (check_teacher_availability world_crash (start two_rows 3)).2 = 3.
Proof.
  refine (proj1 (aborted_run_keeps_streak world_crash (start two_rows 3)
    (Exception "RecursionError" "maximum recursion depth exceeded")
    (check_body world_crash (new_session (start two_rows 3))).2 _)).
  vm_compute; reflexivity.
Defined.

Lemma loop_result_all_failed w l : ∀ n,
  Forall (λ ru, (iteration w ru).2 = Failed) l →
  loop_result w l n = Ok (n + Z.of_nat (length l)).
Proof.
  induction l as [|ru l IH]; intros n Hall; simpl; [f_equal; lia|].
  apply Forall_cons in Hall as [Hru Hall]. rewrite Hru, IH by done. f_equal. lia.
Qed.

(** X15.  When the probe of every row gives the failure marker, the run
    gets through all rows, sends one request for each, notifies nobody,
    leaves the table as it was, and takes the streak up by one. *)
Theorem all_probes_failed w st :
  query_all_error w = None →
  (∀ row user, database st !! row = Some user →
     (get_available_slots w row (teacher_id user) st).1 = Ok None) →
  let st' := (check_teacher_availability w st).2 in
  consecutive_errors st' = consecutive_errors st + 1
  ∧ database st' = database st
  ∧ (∀ row user, database st !! row = Some user →
       Get row (teacher_page (teacher_id user)) ∈ new_events st st')
  ∧ ∀ row, filter (is_notifier_call row) (new_events st st') = [].
Proof.
  intros Hq Hfail st'. subst st'.
  assert (Hall : Forall (λ ru, (iteration w ru).2 = Failed) (all_rows (database st))).
  { apply Forall_forall. intros [row user] Hin. apply iteration_failed_iff.
    cbn [fst snd]. rewrite <- (probe_of_call _ _ _ st).
    by apply Hfail, elem_of_all_rows. }
  pose proof (loop_result_all_failed w _ 0 Hall) as Hres. rewrite Z.add_0_l in Hres.
  split; [|split; [|split]].
  - rewrite check_teacher_availability_eq. cbn [snd].
    unfold run_state, run_streak. cbn [consecutive_errors]. rewrite Hq. cbv zeta.
    rewrite Hres. by rewrite bool_decide_eq_true_2.
  - rewrite check_teacher_availability_eq. cbn [snd].
    unfold run_state, run_db. cbn [database]. rewrite Hq.
    by apply loop_db_all_failed.
  - intros row user Hdb. rewrite new_events_run. unfold run_trace. rewrite Hq.
    apply elem_of_app. left. apply loop_events_get.
    + by apply (loop_result_no_abort _ _ _ _ Hres).
    + by apply elem_of_all_rows.
  - intros row. apply (filter_run_nil _ w st row (is_notifier_call_row row)).
    intros u Hu. specialize (Hfail row u Hu). rewrite probe_of_call in Hfail.
    unfold iteration. cbn [fst snd]. rewrite Hfail. by filter_events.
Qed.

Lemma all_probes_failed_witness :
  consecutive_errors (check_teacher_availability world_down (start two_rows 2)).2 = 3
  ∧ database (check_teacher_availability world_down (start two_rows 2)).2 = two_rows.
Proof.
  assert (H := all_probes_failed world_down (start two_rows 2) eq_refl).
  cbv zeta in H.
  assert (Hfail : ∀ row user, database (start two_rows 2) !! row = Some user →
    (get_available_slots world_down row (teacher_id user) (start two_rows 2)).1 = Ok None).
  { intros row user _. rewrite get_available_slots_eq. reflexivity. }
  destruct (H Hfail) as (H1 & H2 & _). split; [exact H1|exact H2].
Defined.

(** X16.  When the run gets through all rows and the probe of at least
    one row gives a count, the streak is 0 afterwards, whatever it was. *)
Theorem one_success_resets_streak w st n st1 row user c :
  query_all_error w = None →
  for_users w (all_rows (database st)) 0 (new_session st) = (Ok n, st1) →
  database st !! row = Some user →
  (get_available_slots w row (teacher_id user) st).1 = Ok (Some c) →
  consecutive_errors (check_teacher_availability w st).2 = 0.
Proof.
  intros Hq Hrun Hdb Hprobe.
  destruct (streak_after_full_run w st n st1 Hq Hrun) as [_ Hreset].
  apply Hreset. intros Hall. specialize (Hall row user Hdb). congruence.
Qed.

Lemma one_success_resets_streak_witness :
  consecutive_errors (check_teacher_availability world_mixed (start two_rows 4)).2 = 0.
Proof.
  refine (one_success_resets_streak world_mixed (start two_rows 4) 1
    (for_users world_mixed (all_rows (database (start two_rows 4))) 0
       (new_session (start two_rows 4))).2 1 anna 3 _ _ _ _).
  - reflexivity.
  - vm_compute; reflexivity.
  - vm_compute; reflexivity.
  - vm_compute; reflexivity.
Defined.

Lemma run_streak_cases w st :
  consecutive_errors (check_teacher_availability w st).2 = consecutive_errors st
  ∨ consecutive_errors (check_teacher_availability w st).2 = consecutive_errors st + 1
  ∨ consecutive_errors (check_teacher_availability w st).2 = 0.
Proof.
  rewrite check_teacher_availability_eq. cbn [snd]. unfold run_state, run_streak.
  cbn [consecutive_errors]. destruct (query_all_error w); [by left|]. cbv zeta.
  destruct (loop_result w _ 0); [|by left]. case_bool_decide; auto.
Qed.

(** X17.  Through any number of runs the streak stays a count: from a
    streak that is not negative it never becomes negative, and it grows
    by at most one per run. *)
Theorem streak_grows_by_one_per_run ws st :
  0 <= consecutive_errors st →
  0 <= consecutive_errors (scheduler ws st).2
       <= consecutive_errors st + Z.of_nat (length ws).
Proof.
  revert st. induction ws as [|w ws IH]; intros st Hs; [simpl; lia|].
  rewrite scheduler_cons, length_cons, Nat2Z.inj_succ.
  pose proof (run_streak_cases w st) as Hc.
  assert (H0 : 0 <= consecutive_errors (check_teacher_availability w st).2) by lia.
  specialize (IH _ H0). lia.
Qed.

Lemma streak_grows_by_one_per_run_witness :
  0 <= consecutive_errors
         (scheduler [world_down; world_down; world_open; world_down] (start two_rows 0)).2
    <= 0 + 4.
Proof.
  apply (streak_grows_by_one_per_run
           [world_down; world_down; world_open; world_down] (start two_rows 0)).
  vm_compute; congruence.
Defined.

(** X18.  Runs compose: as no run raises, the scheduler starts every run
    of its list, and the state after the runs [ws1 ++ ws2] is the state
    after [ws2] started from the state after [ws1]. *)
Theorem scheduler_app ws1 ws2 st :
  scheduler (ws1 ++ ws2) st = scheduler ws2 (scheduler ws1 st).2.
Proof.
  revert st. induction ws1 as [|w ws1 IH]; intros st; [done|].
  cbn [app]. by rewrite !scheduler_cons, IH.
Qed.

(** *** Looking up the teacher's name *)

(** X19.  [get_teacher_name] does not look at the status code, where
    [get_available_slots] does: a response with another status than 200
    that has a heading gives a name to register, while every probe of
    the same response gives the failure marker. *)
Theorem error_page_has_a_name_but_no_count str_strip get w row st tid resp tag :
  get (teacher_page tid) = Ok resp →
  requests_get w row (teacher_page tid) = Ok resp →
  status_code resp ≠ 200 →
  url resp ≠ LANDING_PAGE →
  find "h1" (content resp) = Some tag →
  get_teacher_name str_strip get tid = Ok (Some (str_strip (text tag)))
  ∧ (get_available_slots w row tid st).1 = Ok None.
Proof.
  intros Hget Hreq Hstatus Hurl Hfind. split.
  - unfold get_teacher_name. rewrite Hget. cbv zeta.
    rewrite bool_decide_eq_false_2 by done. by rewrite Hfind.
  - rewrite get_available_slots_eq. cbn [fst]. unfold probe. rewrite Hreq.
    by rewrite (bool_decide_eq_true_2 (status_code resp ≠ 200)).
Qed.

Lemma error_page_has_a_name_but_no_count_witness :
  get_teacher_name id
    (λ url, Ok (mkResponse 404 url [Tag "h1" [NavigableString "Not Found"]])) "999"
  = Ok (Some "Not Found")
  ∧ (get_available_slots
       (mkWorld None
          (λ _ url, Ok (mkResponse 404 url [Tag "h1" [NavigableString "Not Found"]]))
          (λ _ _, None) (λ _ _ _, None) (λ _, None))
       1 "999" (start ∅ 0)).1
    = Ok None.
Proof.
  refine (error_page_has_a_name_but_no_count id
    (λ url, Ok (mkResponse 404 url [Tag "h1" [NavigableString "Not Found"]]))
    (mkWorld None
       (λ _ url, Ok (mkResponse 404 url [Tag "h1" [NavigableString "Not Found"]]))
       (λ _ _, None) (λ _ _ _, None) (λ _, None))
    1 (start ∅ 0) "999"
    (mkResponse 404 (teacher_page "999") [Tag "h1" [NavigableString "Not Found"]])
    (Tag "h1" [NavigableString "Not Found"]) _ _ _ _ _).
  - reflexivity.
  - reflexivity.
  - discriminate.
  - vm_compute. discriminate.
  - reflexivity.
Defined.

(** X20.  No teacher is registered from a request that ended on the
    landing page or in a RequestException: whatever else the form holds,
    [index] adds no row then. *)
Theorem unreadable_page_registers_nothing str_isdigit str_strip req d uid tid :
  session_user_id req = Some uid →
  uid ≠ "" →
  form req "teacher_id" = Some tid →
  (∃ msg, page_of req (teacher_page tid) = Raise (RequestException msg))
  ∨ (∃ resp, page_of req (teacher_page tid) = Ok resp ∧ url resp = LANDING_PAGE) →
  (index str_isdigit str_strip req d).1 = touch uid (now req) d
  ∧ ∀ loc msg, (index str_isdigit str_strip req d).2 ≠ Redirect loc (Some (msg, "success")).
Proof.
  intros Hs Hne Hform Hpage.
  assert (Hname : get_teacher_name str_strip (page_of req) tid = Ok None).
  { unfold get_teacher_name.
    destruct Hpage as [[m ->]|(resp & -> & Hurl)]; [done|].
    cbv zeta. by rewrite bool_decide_eq_true_2. }
  unfold index. rewrite Hs, index_stamped. rewrite bool_decide_eq_false_2 by done.
  cbv zeta. destruct (req_method req); [done|].
  case_bool_decide; [done|]. rewrite Hform.
  destruct (negb (str_isdigit tid)); [done|].
  destruct (negb (truthy (Some tid)) || negb (truthy (form req "pushbullet_token")));
    [done|].
  destruct (first_row _ (touch uid (now req) d)); [done|].
  by rewrite Hname.
Qed.

Lemma unreadable_page_registers_nothing_witness :
  (index ascii_isdigit ascii_strip
     (mkRequest POST (Some "user_a")
        (form (create_request "user_a" "21")) 100 100
        (λ url, Ok (mkResponse 200 LANDING_PAGE (page "Top" 0))))
     two_rows).1
  = touch "user_a" 100 two_rows.
Proof.
  refine (proj1 (unreadable_page_registers_nothing ascii_isdigit ascii_strip
    (mkRequest POST (Some "user_a") (form (create_request "user_a" "21")) 100 100
       (λ url, Ok (mkResponse 200 LANDING_PAGE (page "Top" 0))))
    two_rows "user_a" "21" _ _ _ _)).
  - reflexivity.
  - discriminate.
  - reflexivity.
  - right. eexists. split; reflexivity.
Defined.

(** *** generate_user_id *)

Lemma random_choices_length {A} draw (population : list A) k :
  population ≠ [] → length (random_choices draw population k) = k.
Proof.
  intros Hne. unfold random_choices.
  assert (Hlen : (0 < length population)%nat) by (destruct population; [done|simpl; lia]).
  generalize 0%nat. induction k as [|k IH]; intros s; [done|]. cbn [seq omap list_omap].
  destruct (lookup_lt_is_Some_2 population (draw s `mod` length population)%nat)
    as [x ->]; [by apply Nat.mod_upper_bound; lia|].
  simpl. by rewrite IH.
Qed.

Lemma random_choices_elem_of {A} draw (population : list A) k x :
  x ∈ random_choices draw population k → x ∈ population.
Proof.
  unfold random_choices. intros Hin. apply list_elem_of_omap in Hin as (i & _ & Hi).
  by eapply list_elem_of_lookup_2.
Qed.

(** X21.  A generated user id is "user_" followed by exactly [length]
    characters, each a lowercase letter or a digit, whatever the random
    generator draws. *)
Theorem generate_user_id_format draw n :
  ∃ suffix,
    generate_user_id draw n = "user_" +:+ String.string_of_list_ascii suffix
    ∧ length suffix = n
    ∧ (∀ a, a ∈ suffix → a ∈ id_alphabet)
    ∧ String.length (generate_user_id draw n) = (5 + n)%nat.
Proof.
  exists (random_choices draw id_alphabet n).
  split; [done|]. split; [by apply random_choices_length|].
  split; [intros a; apply random_choices_elem_of|].
  unfold generate_user_id.
  assert (Happ : ∀ s1 s2, String.length (s1 +:+ s2)
                          = (String.length s1 + String.length s2)%nat).
  { induction s1 as [|a s1 IH]; intros s2; [done|]. simpl. by rewrite IH. }
  assert (Hl : ∀ l, String.length (String.string_of_list_ascii l) = length l).
  { induction l as [|a l IH]; [done|]. simpl. by rewrite IH. }
  rewrite Happ, Hl, random_choices_length by done. reflexivity.
Qed.

(** *** A commit that fails *)

(** X22.  The notifier is called before the commit: when the commit for a
    row whose count went up fails, the notification has gone out all the
    same, the row keeps its old count, the body of the run raises the
    exception of the commit, the rows after it, which are the rows with a
    larger id, are neither probed nor changed, and the streak is left
    alone. *)
Theorem failed_commit_keeps_the_old_count w st row user c e us1 us2 n1 st1 :
  query_all_error w = None →
  all_rows (database st) = us1 ++ (row, user) :: us2 →
  for_users w us1 0 (new_session st) = (Ok n1, st1) →
  (get_available_slots w row (teacher_id user) st).1 = Ok (Some c) →
  c > last_available_count user →
  commit_error w row = Some e →
  let st' := (check_teacher_availability w st).2 in
  (check_body w (new_session st)).1 = Raise e
  ∧ database st' !! row = Some user
  ∧ filter (is_notifier_call row) (new_events st st')
    = [NewPushbullet row (pushbullet_token user)]
  ∧ (∀ r u, (r, u) ∈ us2 →
       row < r
       ∧ filter (is_get r) (new_events st st') = [] ∧ database st' !! r = Some u)
  ∧ consecutive_errors st' = consecutive_errors st.
Proof.
  intros Hq Hl Hrun Hprobe Hgt Hcommit st'. subst st'.
  destruct (all_rows_split _ _ _ _ _ Hl) as [_ Hafter].
  rewrite probe_of_call in Hprobe.
  destruct (for_users_ok_state w us1 0 (new_session st) n1 st1 eq_refl Hrun) as [_ Hres1].
  pose proof (loop_result_no_abort _ _ _ _ Hres1) as Hna.
  destruct (iteration_counted w row user c Hprobe) as [Hev Hit]. rewrite Hcommit in Hit.
  pose proof (NoDup_fst_all_rows (database st)) as Hnd.
  rewrite Hl, fmap_app, fmap_cons in Hnd.
  apply NoDup_app in Hnd as (_ & Hdisj & Hnd2).
  apply NoDup_cons in Hnd2 as [Hnot2 Hnd2].
  assert (Hnot1 : row ∉ us1.*1) by (intros Hin; eapply Hdisj; [done|by left]).
  assert (Hres : loop_result w (all_rows (database st)) 0 = Raise e).
  { rewrite Hl, loop_result_app, Hres1. simpl. by rewrite Hit. }
  assert (Hevs : loop_events w (all_rows (database st))
                 = loop_events w us1 ++ (iteration w (row, user)).1).
  { rewrite Hl, loop_events_app by done. simpl. by rewrite Hit, app_nil_r. }
  assert (Hdb : database (check_teacher_availability w st).2 = loop_db w us1 (database st)).
  { rewrite check_teacher_availability_eq. cbn [snd]. unfold run_state, run_db.
    cbn [database]. rewrite Hq, Hl, loop_db_app by done. simpl. by rewrite Hit. }
  assert (Htrace : ∀ (P : event → Prop) `{!∀ x, Decision (P x)},
            (∀ x, P x → is_Some (row_of x)) →
            filter P (new_events st (check_teacher_availability w st).2)
            = filter P (loop_events w us1) ++ filter P (iteration w (row, user)).1).
  { intros P HdP HP. rewrite new_events_run. unfold run_trace.
    rewrite Hq, Hevs, !filter_app.
    assert (filter P (final_lines w st) = []) as ->; [|by rewrite app_nil_r].
    pose proof (final_lines_rows w st) as Hrows.
    induction Hrows as [|x l Hx _ IH]; [done|].
    rewrite filter_cons_False; [done|]. intros Hx'. apply HP in Hx' as [? Hx'].
    congruence. }
  split; [|split; [|split; [|split]]].
  - rewrite check_body_eq by done. rewrite Hq.
    destruct (for_users_spec w (all_rows (database st)) 0 (new_session st) eq_refl)
      as (s' & Hspec & _).
    change (database (new_session st)) with (database st) in *.
    by rewrite Hspec, Hres.
  - rewrite Hdb, loop_db_lookup_notin by done.
    apply elem_of_all_rows. rewrite Hl. apply elem_of_app. right. by left.
  - rewrite (Htrace (is_notifier_call row)).
    2:{ intros x Hx. apply is_notifier_call_row in Hx. by eexists. }
    rewrite (filter_other_loop _ row (is_notifier_call_row row)) by done.
    rewrite Hev. unfold decision_events, notify_events.
    rewrite bool_decide_eq_true_2 by done.
    destruct (Pushbullet_init w row _); [|destruct (push_link_result w row _ _)];
      by filter_events.
  - intros r u Hin.
    assert (Hr1 : r ∉ us1.*1).
    { intros Hin1. eapply Hdisj; [done|]. right. change r with (r, u).1.
      by apply list_elem_of_fmap_2. }
    assert (Hrr : r ≠ row).
    { intros ->. apply Hnot2. exact (list_elem_of_fmap_2 fst _ _ Hin). }
    split; [rewrite Forall_forall in Hafter; by apply (Hafter (r, u))|].
    split.
    + rewrite (Htrace (is_get r)).
      2:{ intros x Hx. apply is_get_row in Hx. by eexists. }
      rewrite (filter_other_loop _ r (is_get_row r)) by done.
      by rewrite (filter_other_iteration _ r (is_get_row r)).
    + rewrite Hdb, loop_db_lookup_notin by done.
      apply elem_of_all_rows. rewrite Hl. apply elem_of_app. right. by right.
  - rewrite check_teacher_availability_eq. cbn [snd]. unfold run_state, run_streak.
    cbn [consecutive_errors]. rewrite Hq. cbv zeta. by rewrite Hres.
Qed.

Lemma failed_commit_keeps_the_old_count_witness :
  database (check_teacher_availability world_commit_fails (start two_rows 0)).2 !! 1
  = Some anna
  ∧ filter (is_notifier_call 1)
      (new_events (start two_rows 0)
         (check_teacher_availability world_commit_fails (start two_rows 0)).2)
    = [NewPushbullet 1 "token-a"]
  ∧ filter (is_notifier_call 1)
      (new_events (check_teacher_availability world_commit_fails (start two_rows 0)).2
         (check_teacher_availability world_commit_fails
            (check_teacher_availability world_commit_fails (start two_rows 0)).2).2)
    = [NewPushbullet 1 "token-a"].
Proof.
  destruct (failed_commit_keeps_the_old_count world_commit_fails (start two_rows 0) 1 anna 3
    (Exception "OperationalError" "database is locked") [] [(2, ben)] 0
    (for_users world_commit_fails [] 0 (new_session (start two_rows 0))).2)
    as (_ & H1 & H2 & _).
  - reflexivity.
  - vm_compute; reflexivity.
  - vm_compute; reflexivity.
  - vm_compute; reflexivity.
  - vm_compute; reflexivity.
  - reflexivity.
  - split; [exact H1|]. split; [exact H2|]. vm_compute; reflexivity.
Defined.

(** *** What a user sees and can change *)

(** X23.  A GET of [index] by a user shows that user's rows, all of them
    and no row of another owner, none twice, together with their number;
    it stamps them and changes nothing else. *)
Theorem index_shows_own_rows str_isdigit str_strip req d uid :
  req_method req = GET →
  session_user_id req = Some uid →
  uid ≠ "" →
  ∃ rows,
    index str_isdigit str_strip req d
    = (touch uid (now req) d, Render "index.html" rows (Z.of_nat (length rows)) uid)
    ∧ NoDup rows.*1
    ∧ ∀ k u, (k, u) ∈ rows ↔ touch uid (now req) d !! k = Some u ∧ user_id u = uid.
Proof.
  intros Hm Hs Hne. unfold index. rewrite Hs, Hm, index_stamped.
  rewrite bool_decide_eq_false_2 by done. cbv zeta.
  set (d1 := touch uid (now req) d).
  set (rows := filter (λ kv : Z * UserData, user_id kv.2 = uid) (all_rows d1)).
  assert (Hnd : NoDup rows.*1).
  { unfold rows. eapply sublist_NoDup; [apply (NoDup_fst_all_rows d1)|].
    apply fmap_sublist, sublist_filter. }
  exists rows. split; [|split; [done|]].
  - do 2 f_equal. unfold owner_count. f_equal.
    rewrite map_filter_alt, map_size_list_to_map.
    + unfold rows. by rewrite all_rows_perm.
    + eapply sublist_NoDup; [apply (NoDup_fst_map_to_list d1)|].
      apply fmap_sublist, sublist_filter.
  - intros k u. unfold rows. rewrite list_elem_of_filter, elem_of_all_rows. cbn.
    tauto.
Qed.

Lemma index_shows_own_rows_witness :
  (index ascii_isdigit ascii_strip
     (mkRequest GET (Some "user_b") (λ _, None) 300 300
        (λ url, Raise (RequestException "unreachable"))) two_rows).2
  = Render "index.html" [(2, with_last_accessed 300 ben)] 1 "user_b".
Proof.
  destruct (index_shows_own_rows ascii_isdigit ascii_strip
    (mkRequest GET (Some "user_b") (λ _, None) 300 300
       (λ url, Raise (RequestException "unreachable"))) two_rows "user_b")
    as (rows & Heq & _).
  - reflexivity.
  - reflexivity.
  - discriminate.
  - vm_compute; reflexivity.
Defined.

(** X24.  A request changes rows of the user of its session only: through
    [index], [delete_teacher] and [reset_user] a row of any other owner
    is in the table afterwards exactly when it was before, unchanged. *)
Theorem other_owners_untouched str_isdigit str_strip req d k u :
  Some (user_id u) ≠ session_user_id req →
  ((index str_isdigit str_strip req d).1 !! k = Some u ↔ d !! k = Some u)
  ∧ ((delete_teacher req d).1 !! k = Some u ↔ d !! k = Some u)
  ∧ ((reset_user req d).1 !! k = Some u ↔ d !! k = Some u).
Proof.
  intros Hother. split; [|split].
  - pose proof (index_cases str_isdigit str_strip req d) as Hc.
    destruct (session_user_id req) as [uid|]; [|by rewrite Hc].
    case_bool_decide; [by rewrite Hc|].
    assert (Htouch : touch uid (now req) d !! k = Some u ↔ d !! k = Some u).
    { rewrite lookup_touch. destruct (d !! k) as [v|]; [|done]. simpl.
      case_bool_decide as Hv; [|done]. split; intros [= Heq].
      - exfalso. apply Hother. rewrite <- Heq. cbn. by rewrite Hv.
      - exfalso. apply Hother. rewrite <- Heq. by rewrite Hv. }
    destruct Hc as [->|(x & Hx & _ & ->)]; [done|].
    rewrite lookup_insert_Some, Htouch. split.
    + intros [[_ ->]|[_ Hk]]; [|done]. exfalso. apply Hother. by rewrite Hx.
    + intros Hk. right. split; [|done]. intros <-.
      apply Htouch in Hk. by rewrite next_id_fresh in Hk.
  - destruct (delete_teacher_cases req d)
      as [[-> _]|(j & v & tid & uid & _ & _ & Hs & Hj & _ & Hv & ->)]; [done|].
    cbn [fst]. rewrite lookup_delete_Some. split; [by intros [_ ?]|].
    intros Hk. split; [|done]. intros <-. apply Hother.
    rewrite Hj in Hk. injection Hk as <-. by rewrite Hv, Hs.
  - unfold reset_user. destruct (req_method req); [done|].
    cbn [fst]. destruct (truthy (session_user_id req)); [|done].
    rewrite map_lookup_filter_Some. cbn. tauto.
Qed.

Lemma other_owners_untouched_witness :
  (reset_user (delete_request "user_a" "101") two_rows).1 !! 2 = Some ben
  ∧ (reset_user (delete_request "user_a" "101") two_rows).1 !! 1 = None.
Proof.
  split; [|vm_compute; reflexivity].
  apply (other_owners_untouched ascii_isdigit ascii_strip (delete_request "user_a" "101")
           two_rows 2 ben).
  - discriminate.
  - reflexivity.
Defined.
